(** * csv_to_sqlite: a model of the CSV-to-SQLite converter

    The converter of [csv_to_sqlite.py] is one procedure,
    [csv_to_sqlite(csv_file, db_file, table_name)], written against two
    libraries: pandas (reading and normalising a frame) and sqlite3 (the
    destination table).  This development embeds the procedure statement by
    statement over a model of the library calls it makes, and proves the
    properties the specification states about it.

    Conventions of the model:
    - text is [string], characters being the code points 0..255;
    - a double is a [spec_float] (the IEEE-754 binary64 data of the standard
      library), NaN marking a missing cell as in pandas;
    - a 64-bit integer is a [Z];
    - [datetime64[ns]] is a [Z] counting nanoseconds since 1970-01-01, with
      the least int64 as NaT;
    - what the libraries do with text and doubles at the last bit (numeric
      literal conversion, float rendering) and the corners of SQL that the
      converter does not decide are the fields of the class [Platform]. *)

From Stdlib Require Import ZArith List String Ascii Bool Lia.
From Stdlib Require Import Floats.SpecFloat.
From stdpp Require Import base option list strings gmap.

Local Open Scope string_scope.
Local Open Scope Z_scope.

(* ===================================================================== *)
(** ** Characters and decimal numerals                                    *)
(* ===================================================================== *)

Definition code (c : ascii) : Z := Z.of_N (N_of_ascii c).

Definition in_class (lo hi : Z) (c : ascii) : bool :=
  (lo <=? code c) && (code c <=? hi).

(** [\d] and [[0-9]] *)
Definition is_digit (c : ascii) : bool := in_class 48 57 c.

Definition digit_val (c : ascii) : Z := code c - 48.

Definition digit_char (k : Z) : ascii := ascii_of_N (Z.to_N (48 + k)).

Fixpoint all_digits (s : string) : bool :=
  match s with
  | EmptyString => true
  | String c r => is_digit c && all_digits r
  end.

Fixpoint decimal_value_from (acc : Z) (s : string) : Z :=
  match s with
  | EmptyString => acc
  | String c r => decimal_value_from (10 * acc + digit_val c) r
  end.

Definition decimal_value (s : string) : Z := decimal_value_from 0 s.

Definition slen (s : string) : Z := Z.of_nat (String.length s).

(** [f"{n:02d}"] for [0 <= n < 100] *)
Definition two_digits (n : Z) : string :=
  String (digit_char (n / 10)) (String (digit_char (n mod 10)) EmptyString).

(** [%Y] of a year in 1000..9999 *)
Definition four_digits (n : Z) : string :=
  String (digit_char (n / 1000))
    (String (digit_char (n / 100 mod 10)) (two_digits (n mod 100))).

(** the decimal digits of a natural number, most significant first *)
Fixpoint nat_digits (fuel : nat) (n : Z) (acc : string) : string :=
  match fuel with
  | O => acc
  | S k =>
      let acc' := String (digit_char (n mod 10)) acc in
      if n <? 10 then acc' else nat_digits k (n / 10) acc'
  end.

(** Python's [str(n)] for an [int] *)
Definition int_str (z : Z) : string :=
  let a := Z.abs z in
  let ds := nat_digits (S (Z.to_nat (Z.log2 a))) a EmptyString in
  if z <? 0 then String "-" ds else ds.

(* ===================================================================== *)
(** ** Doubles                                                            *)
(* ===================================================================== *)

Definition float := spec_float.

Definition prec : Z := 53.
Definition emax : Z := 1024.

Definition nan : float := S754_nan.

Definition is_nan (f : float) : bool :=
  match f with S754_nan => true | _ => false end.

(** [np.isfinite] *)
Definition is_finite (f : float) : bool :=
  match f with
  | S754_zero _ | S754_finite _ _ _ => true
  | _ => false
  end.

(** the C conversion [(double) z]: round to nearest, ties to even *)
Definition float_of_int (z : Z) : float := binary_normalize prec emax z 0 false.

Definition fzero : float := S754_zero false.

(** the C conversion [(int64_t) f] on the mathematical integers: the
    fraction bits are shifted out of the magnitude and the sign put back *)
Definition float_trunc (f : float) : Z :=
  match f with
  | S754_finite s m e =>
      let a := Z.shiftl (Z.pos m) e in
      if s then - a else a
  | _ => 0
  end.

(** the exact value of a finite double as a fraction [num / den] *)
Definition float_num (f : float) : Z :=
  match f with
  | S754_finite s m e =>
      let n := Z.pos m * 2 ^ Z.max e 0 in
      if s then - n else n
  | _ => 0
  end.

Definition float_den (f : float) : Z :=
  match f with
  | S754_finite _ _ e => 2 ^ Z.max (- e) 0
  | _ => 1
  end.

Definition int64_min : Z := - 2 ^ 63.
Definition int64_max : Z := 2 ^ 63 - 1.

Definition in_int64 (z : Z) : bool := (int64_min <=? z) && (z <=? int64_max).

(* ===================================================================== *)
(** ** Calendar arithmetic of datetime64 (numpy's [datetime.c])           *)
(* ===================================================================== *)

(** [is_leapyear]: [(year & 0x3) == 0 && ((year % 100) != 0 || (year % 400) == 0)] *)
Definition is_leapyear (year : Z) : bool :=
  (Z.land year 3 =? 0) &&
  (negb (Z.rem year 100 =? 0) || (Z.rem year 400 =? 0)).

Definition days_per_month_table (leap : bool) : list Z :=
  [31; if leap then 29 else 28; 31; 30; 31; 30; 31; 31; 30; 31; 30; 31].

(** [get_datetimestruct_days]: days since 1970-01-01 of a calendar date;
    [/] of C is [Z.quot] *)
Definition get_datetimestruct_days (y m d : Z) : Z :=
  let year := y - 1970 in
  let days := year * 365 in
  let days :=
    if 0 <=? days then
      let year := year + 1 in
      let days := days + Z.quot year 4 in
      let year := year + 68 in
      let days := days - Z.quot year 100 in
      let year := year + 300 in
      days + Z.quot year 400
    else
      let year := year - 2 in
      let days := days + Z.quot year 4 in
      let year := year - 28 in
      let days := days - Z.quot year 100 in
      days + Z.quot year 400 in
  let month_lengths := days_per_month_table (is_leapyear y) in
  let days := days + fold_right Z.add 0 (firstn (Z.to_nat (m - 1)) month_lengths) in
  days + (d - 1).

(** [days_to_yearsdays]: the year of a day number and the day within it *)
Definition days_to_yearsdays (days0 : Z) : Z * Z :=
  let days_per_400years := 400 * 365 + 100 - 4 + 1 in
  let days := days0 - (365 * 30 + 7) in
  let '(year, days) :=
    if 0 <=? days then
      (400 * Z.quot days days_per_400years, Z.rem days days_per_400years)
    else
      let year := 400 * Z.quot (days - (days_per_400years - 1)) days_per_400years in
      let days := Z.rem days days_per_400years in
      (year, if days <? 0 then days + days_per_400years else days) in
  let '(year, days) :=
    if 366 <=? days then
      let year := year + 100 * Z.quot (days - 1) (100 * 365 + 25 - 1) in
      let days := Z.rem (days - 1) (100 * 365 + 25 - 1) in
      if 365 <=? days then
        let year := year + 4 * Z.quot (days + 1) (4 * 365 + 1) in
        let days := Z.rem (days + 1) (4 * 365 + 1) in
        if 366 <=? days then
          (year + Z.quot (days - 1) 365, Z.rem (days - 1) 365)
        else (year, days)
      else (year, days)
    else (year, days) in
  (year + 2000, days).

(** the loop of [set_datetimestruct_days] over the month table *)
Fixpoint month_of_yearday (lengths : list Z) (month days : Z) : Z * Z :=
  match lengths with
  | [] => (month, days + 1)
  | len :: rest =>
      if days <? len then (month, days + 1)
      else month_of_yearday rest (month + 1) (days - len)
  end.

(** [set_datetimestruct_days]: the calendar date of a day number *)
Definition set_datetimestruct_days (days : Z) : Z * Z * Z :=
  let '(year, yday) := days_to_yearsdays days in
  let '(month, day) := month_of_yearday (days_per_month_table (is_leapyear year)) 1 yday in
  (year, month, day).

(** Python's [datetime.date(year, month, day)] accepts exactly these *)
Definition date_ok (y m d : Z) : bool :=
  (1 <=? y) && (y <=? 9999) && (1 <=? m) && (m <=? 12) && (1 <=? d) &&
  (d <=? nth (Z.to_nat (m - 1)) (days_per_month_table (is_leapyear y)) 0).

(* ===================================================================== *)
(** ** datetime64[ns]                                                     *)
(* ===================================================================== *)

Definition datetime64 := Z.

Definition NaT : datetime64 := int64_min.

Definition ns_per_day : Z := 86400 * 1000000000.

(** [npy_datetimestruct_to_datetime(NPY_FR_ns, dts)] under [check_dts_bounds]:
    a date whose nanosecond count leaves int64 is out of bounds *)
Definition datetimestruct_to_ns (y m d : Z) : option datetime64 :=
  let ns := get_datetimestruct_days y m d * ns_per_day in
  if (int64_min <? ns) && (ns <=? int64_max) then Some ns else None.

(** [pandas_datetime_to_datetimestruct]: floor division by the day *)
Definition ns_to_datetimestruct (ns : datetime64) : Z * Z * Z :=
  set_datetimestruct_days (ns / ns_per_day).

(* ===================================================================== *)
(** ** strptime with the format [%m/%d/%Y]                                *)
(* ===================================================================== *)

(** The format compiles to the regular expression
    [(?P<m>1[0-2]|0[1-9]|[1-9])/(?P<d>3[0-1]|[1-2]\d|0[1-9]|[1-9]| [1-9])/(?P<Y>\d\d\d\d)]
    matched from the start of the text.  A group is a backtracking matcher:
    it offers its alternatives to the continuation in their written order. *)
Definition matcher (A R : Type) : Type := string -> (A -> string -> option R) -> option R.

Definition orelse {R} (x y : option R) : option R :=
  match x with Some r => Some r | None => y end.

(** a two-character alternative [[lo1-hi1][lo2-hi2]] with its value *)
Definition alt2 {R} (lo1 hi1 lo2 hi2 : Z) (val : ascii -> ascii -> Z) : matcher Z R :=
  fun s k =>
    match s with
    | String c1 (String c2 r) =>
        if in_class lo1 hi1 c1 && in_class lo2 hi2 c2 then k (val c1 c2) r else None
    | _ => None
    end.

(** a one-character alternative [[lo-hi]] *)
Definition alt1 {R} (lo hi : Z) : matcher Z R :=
  fun s k =>
    match s with
    | String c r => if in_class lo hi c then k (digit_val c) r else None
    | _ => None
    end.

Definition two_val (c1 c2 : ascii) : Z := 10 * digit_val c1 + digit_val c2.
Definition snd_val (_ c2 : ascii) : Z := digit_val c2.

(** [%m]: [1[0-2]|0[1-9]|[1-9]] *)
Definition re_m {R} : matcher Z R :=
  fun s k =>
    orelse (alt2 49 49 48 50 two_val s k)
   (orelse (alt2 48 48 49 57 two_val s k)
           (alt1 49 57 s k)).

(** [%d]: [3[0-1]|[1-2]\d|0[1-9]|[1-9]| [1-9]] *)
Definition re_d {R} : matcher Z R :=
  fun s k =>
    orelse (alt2 51 51 48 49 two_val s k)
   (orelse (alt2 49 50 48 57 two_val s k)
   (orelse (alt2 48 48 49 57 two_val s k)
   (orelse (alt1 49 57 s k)
           (alt2 32 32 49 57 snd_val s k)))).

(** [%Y]: [\d\d\d\d] *)
Definition re_Y {R} : matcher Z R :=
  fun s k =>
    match s with
    | String c1 (String c2 (String c3 (String c4 r))) =>
        if is_digit c1 && is_digit c2 && is_digit c3 && is_digit c4
        then k (1000 * digit_val c1 + 100 * digit_val c2 + 10 * digit_val c3 + digit_val c4) r
        else None
    | _ => None
    end.

(** the literal [/] of the format *)
Definition re_slash {R} (s : string) (k : string -> option R) : option R :=
  match s with
  | String c r => if code c =? 47 then k r else None
  | _ => None
  end.

(** [format_regex.match(val)]: the first match in backtracking order, with
    the text left after it *)
Definition format_regex_match (val : string) : option (Z * Z * Z * string) :=
  re_m val (fun m r1 =>
  re_slash r1 (fun r2 =>
  re_d r2 (fun d r3 =>
  re_slash r3 (fun r4 =>
  re_Y r4 (fun y rest => Some (m, d, y, rest)))))).

(** one element of [array_strptime] under [errors='coerce', exact=True]:
    no match, unconverted text after the match, a date [datetime.date]
    rejects and a date outside the nanosecond bounds all give NaT *)
Definition strptime_coerce (val : string) : datetime64 :=
  match format_regex_match val with
  | Some (m, d, y, EmptyString) =>
      if date_ok y m d then
        match datetimestruct_to_ns y m d with
        | Some ns => ns
        | None => NaT
        end
      else NaT
  | _ => NaT
  end.

(** [Timestamp.strftime('%Y-%m-%d')] *)
Definition strftime_Ymd (ns : datetime64) : string :=
  let '(y, m, d) := ns_to_datetimestruct ns in
  four_digits y +:+ "-" +:+ two_digits m +:+ "-" +:+ two_digits d.

(* ===================================================================== *)
(** ** Exceptions                                                         *)
(* ===================================================================== *)

(** what a failing SQL statement reports *)
Inductive sql_error :=
  | UnableToOpen                       (* unable to open database file *)
  | SyntaxError                        (* near "...": syntax error *)
  | NoSuchColumn (column : string)     (* table ... has no column named ... *)
  | NoSuchTable.                       (* no such table: ... *)

(** the exceptions the library calls of the converter raise *)
Inductive exn :=
  | FileNotFoundError                  (* builtins, under OSError *)
  | IsADirectoryError                  (* builtins, under OSError *)
  | PermissionError                    (* builtins, under OSError *)
  | EmptyDataError                     (* pandas.errors, under ValueError *)
  | ParserError                        (* pandas.errors, under ValueError *)
  | KeyError (key : string)            (* builtins, under LookupError *)
  | IntCastingNaNError                 (* pandas.errors, under ValueError *)
  | OperationalError (e : sql_error)   (* sqlite3, under DatabaseError *)
  | DatabaseError.                     (* sqlite3, under Error: file is not a database *)

(** [isinstance(e, FileNotFoundError)] *)
Definition is_FileNotFoundError (e : exn) : bool :=
  match e with FileNotFoundError => true | _ => false end.

(** [isinstance(e, Exception)]: every class above derives from [Exception] *)
Definition is_Exception (e : exn) : bool :=
  match e with
  | FileNotFoundError | IsADirectoryError | PermissionError
  | EmptyDataError | ParserError | KeyError _ | IntCastingNaNError
  | OperationalError _ | DatabaseError => true
  end.

Inductive result (A : Type) :=
  | Ok (a : A)
  | Raise (e : exn).
Arguments Ok {A} a.
Arguments Raise {A} e.

#[global] Instance result_ret : MRet result := fun A a => Ok a.
#[global] Instance result_bind : MBind result := fun A B f m =>
  match m with Ok a => f a | Raise e => Raise e end.

(* ===================================================================== *)
(** ** Values of SQLite and the platform                                  *)
(* ===================================================================== *)

Inductive sqlvalue :=
  | SNull
  | SInteger (z : Z)
  | SReal (f : float)
  | SText (s : string).

(** the type affinity of a column *)
Inductive affinity := TEXT | NUMERIC | INTEGER | REAL | BLOB.

(** What the libraries compute on text and at the last bit of a double, and
    the parts of SQL the converter leaves to the engine. *)
Class Platform := {
  (** the reading of a text cell as a number by [pd.to_numeric]: the double
      it converts to, and its integer value when the text is an integer
      literal; [None] when the text is not numeric *)
  numeric_literal : string -> option (float * option Z);
  (** Python's [str(x)] of a float *)
  float_repr : float -> string;
  (** the C conversion to int64 of a finite double beyond the int64 range,
      which C leaves to the machine *)
  cast_out_of_range : float -> Z;
  (** the affinity conversions between text and numbers and from a real to
      an integer column *)
  sqlite_convert : affinity -> sqlvalue -> sqlvalue;
  (** whether a name spliced into a statement parses and names the table
      that the quoted name denotes *)
  sqlite_table_name_ok : string -> bool
}.

(** *** An instance to evaluate examples with *)

(** the digits before and after a decimal point: [digits] or [digits.digits] *)
Fixpoint split_point (s : string) : string * option string :=
  match s with
  | EmptyString => (EmptyString, None)
  | String c r =>
      if code c =? 46 then (EmptyString, Some r)
      else let '(a, b) := split_point r in (String c a, b)
  end.

Definition strip_sign (s : string) : bool * string :=
  match s with
  | String c r =>
      if code c =? 45 then (true, r)
      else if code c =? 43 then (false, r) else (false, s)
  | EmptyString => (false, s)
  end.

(** the double nearest to [n / 10^k] *)
Definition decimal_to_float (neg : bool) (n : Z) (k : Z) : float :=
  match n with
  | Z.pos p => SFdiv prec emax (S754_finite neg p 0) (S754_finite false (Z.to_pos (10 ^ k)) 0)
  | _ => S754_zero neg
  end.

(** plain decimal literals, converted with correct rounding *)
Definition decimal_literal (s : string) : option (float * option Z) :=
  let '(neg, body) := strip_sign s in
  let '(ip, fp) := split_point body in
  let sign z := if neg then - z else z in
  match fp with
  | None =>
      if all_digits ip && (0 <? slen ip) then
        let z := sign (decimal_value ip) in
        Some (float_of_int z, Some z)
      else None
  | Some fp =>
      if all_digits ip && all_digits fp && (0 <? slen ip + slen fp) then
        Some (decimal_to_float neg (decimal_value (ip +:+ fp)) (slen fp), None)
      else None
  end.

(** an exact rendering of a double by significand and binary exponent *)
Definition float_exact_text (f : float) : string :=
  match f with
  | S754_zero s => if s then "-0.0" else "0.0"
  | S754_infinity s => if s then "-inf" else "inf"
  | S754_nan => "nan"
  | S754_finite s m e =>
      (if s then "-" else "") +:+ int_str (Z.pos m) +:+ "p" +:+ int_str e
  end.

Definition is_name_start (c : ascii) : bool :=
  in_class 65 90 c || in_class 97 122 c || (code c =? 95).

Fixpoint all_name_chars (s : string) : bool :=
  match s with
  | EmptyString => true
  | String c r => (is_name_start c || is_digit c) && all_name_chars r
  end.

Definition plain_identifier (s : string) : bool :=
  match s with
  | String c r => is_name_start c && all_name_chars r
  | EmptyString => false
  end.

Definition sample_platform : Platform := {|
  numeric_literal := decimal_literal;
  float_repr := float_exact_text;
  cast_out_of_range := fun _ => int64_min;
  sqlite_convert := fun _ v => v;
  sqlite_table_name_ok := plain_identifier
|}.

(* ===================================================================== *)
(** ** Series and frames of pandas                                        *)
(* ===================================================================== *)

(** an element of an object column: a [str] or a [float] (NaN when missing) *)
Inductive pyobj :=
  | OStr (s : string)
  | OFloat (f : float).

(** a column with its dtype *)
Inductive Series :=
  | Int64 (xs : list Z)
  | Float64 (xs : list float)
  | Boolean (xs : list bool)
  | Object (xs : list pyobj).

(** a numeric column, as [pd.to_numeric] returns it *)
Inductive Numeric :=
  | NInt64 (xs : list Z)
  | NFloat64 (xs : list float)
  | NBool (xs : list bool).

(** a cell as a Python value *)
Inductive value :=
  | VInt (z : Z)
  | VFloat (f : float)
  | VBool (b : bool)
  | VStr (s : string).

Definition obj_value (o : pyobj) : value :=
  match o with OStr s => VStr s | OFloat f => VFloat f end.

Definition values (s : Series) : list value :=
  match s with
  | Int64 xs => map VInt xs
  | Float64 xs => map VFloat xs
  | Boolean xs => map VBool xs
  | Object xs => map obj_value xs
  end.

(** [pd.isna] of a cell *)
Definition is_missing (v : value) : bool :=
  match v with VFloat f => is_nan f | _ => false end.

Definition Series_of (n : Numeric) : Series :=
  match n with
  | NInt64 xs => Int64 xs
  | NFloat64 xs => Float64 xs
  | NBool xs => Boolean xs
  end.

(** a frame: its columns in order, each with its name *)
Definition DataFrame : Type := list (string * Series).

(** [len(df)] *)
Definition len (df : DataFrame) : nat :=
  match df with
  | [] => O
  | (_, s) :: _ => length (values s)
  end.

(** [list(df.columns)] *)
Definition column_names (df : DataFrame) : list string := map fst df.

(** [df[c]] *)
Fixpoint df_get (df : DataFrame) (c : string) : result Series :=
  match df with
  | [] => Raise (KeyError c)
  | (n, s) :: rest => if String.eqb n c then Ok s else df_get rest c
  end.

(** [df[c] = s]: the column is replaced where it stands, or added last *)
Fixpoint df_set (df : DataFrame) (c : string) (s : Series) : DataFrame :=
  match df with
  | [] => [(c, s)]
  | (n, s0) :: rest =>
      if String.eqb n c then (n, s) :: rest else (n, s0) :: df_set rest c s
  end.

(** the cell of column [c] in row [i] *)
Definition cell (df : DataFrame) (c : string) (i : nat) : option value :=
  match df_get df c with
  | Ok s => nth_error (values s) i
  | Raise _ => None
  end.

(** *** The calls of the preprocessing step *)

(** [pd.to_datetime(s, format='%m/%d/%Y', errors='coerce')].  A text is
    parsed by the format; a missing cell is NaT.  A number is matched through
    its [str()], in which no [/] occurs, so that it is NaT as well, and a
    boolean column, which cannot be converted, is coerced to NaT whole. *)
Definition to_datetime (s : Series) : list datetime64 :=
  match s with
  | Object xs =>
      map (fun o => match o with OStr v => strptime_coerce v | OFloat _ => NaT end) xs
  | Int64 xs => map (fun _ => NaT) xs
  | Float64 xs => map (fun _ => NaT) xs
  | Boolean xs => map (fun _ => NaT) xs
  end.

(** [.dt.strftime('%Y-%m-%d')]: NaT becomes NaN *)
Definition dt_strftime (ts : list datetime64) : Series :=
  Object (map (fun t => if t =? NaT then OFloat nan else OStr (strftime_Ymd t)) ts).

(** [.fillna(v)] with a text [v] *)
Definition fillna_str (v : string) (s : Series) : Series :=
  match s with
  | Object xs =>
      Object (map (fun o => match o with
                            | OFloat f => if is_nan f then OStr v else o
                            | OStr _ => o
                            end) xs)
  | Float64 xs =>
      if existsb is_nan xs
      then Object (map (fun f => if is_nan f then OStr v else OFloat f) xs)
      else s
  | Int64 _ | Boolean _ => s
  end.

Section Pandas.
Context `{Platform}.

(** the integer and the double that [maybe_convert_numeric] sees in an element *)
Definition obj_numeric (o : pyobj) : option (float * option Z) :=
  match o with
  | OStr s =>
      match numeric_literal s with
      | Some (f, Some z) => if in_int64 z then Some (f, Some z) else Some (f, None)
      | r => r
      end
  | OFloat f => Some (f, None)
  end.

Definition obj_int (o : pyobj) : option Z :=
  match obj_numeric o with Some (_, Some z) => Some z | _ => None end.

Definition obj_float (o : pyobj) : float :=
  match obj_numeric o with Some (f, _) => f | None => nan end.

(** [pd.to_numeric(s, errors='coerce')]: a numeric column is returned as it
    is; an object column becomes int64 when every element is an integer and
    float64 otherwise, what is not a number becoming NaN *)
Definition to_numeric (s : Series) : Numeric :=
  match s with
  | Int64 xs => NInt64 xs
  | Float64 xs => NFloat64 xs
  | Boolean xs => NBool xs
  | Object xs =>
      match mapM obj_int xs with
      | Some zs => NInt64 zs
      | None => NFloat64 (map obj_float xs)
      end
  end.

(** [.fillna(0.0)] and [.fillna(0)] of a numeric column *)
Definition fillna_zero (n : Numeric) : Numeric :=
  match n with
  | NFloat64 xs => NFloat64 (map (fun f => if is_nan f then fzero else f) xs)
  | NInt64 _ | NBool _ => n
  end.

(** the conversion of one finite double to int64 *)
Definition float_to_int64 (f : float) : Z :=
  let z := float_trunc f in
  if in_int64 z then z else cast_out_of_range f.

(** [.astype(int)]: a float column with a non-finite element raises *)
Definition astype_int (n : Numeric) : result (list Z) :=
  match n with
  | NInt64 xs => Ok xs
  | NBool xs => Ok (map (fun b : bool => if b then 1 else 0) xs)
  | NFloat64 xs =>
      if forallb is_finite xs then Ok (map float_to_int64 xs)
      else Raise IntCastingNaNError
  end.

(** Python's [str(x)] of a cell *)
Definition py_str (v : value) : string :=
  match v with
  | VInt z => int_str z
  | VFloat f => float_repr f
  | VBool b => if b then "True" else "False"
  | VStr s => s
  end.

(** [.astype(str)] *)
Definition astype_str (s : Series) : Series :=
  Object (map (fun v => OStr (py_str v)) (values s)).

(** *** Step 2 of the converter: the dtypes of the columns *)

Definition text_columns : list string :=
  ["order_id"; "ship_mode"; "customer_name"; "segment"; "state";
   "country"; "market"; "region"; "product_id"; "category";
   "sub_category"; "product_name"; "order_priority"].

(** [df[c] = pd.to_datetime(df[c], format='%m/%d/%Y', errors='coerce').dt.strftime('%Y-%m-%d')] *)
Definition set_date (c : string) (df : DataFrame) : result DataFrame :=
  s ← df_get df c;
  mret (df_set df c (dt_strftime (to_datetime s))).

(** [df[c] = df[c].fillna('1900-01-01')] *)
Definition set_date_default (c : string) (df : DataFrame) : result DataFrame :=
  s ← df_get df c;
  mret (df_set df c (fillna_str "1900-01-01" s)).

(** [df[c] = pd.to_numeric(df[c], errors='coerce').fillna(0.0)] *)
Definition set_float (c : string) (df : DataFrame) : result DataFrame :=
  s ← df_get df c;
  mret (df_set df c (Series_of (fillna_zero (to_numeric s)))).

(** [df[c] = pd.to_numeric(df[c], errors='coerce').fillna(0).astype(int)] *)
Definition set_int (c : string) (df : DataFrame) : result DataFrame :=
  s ← df_get df c;
  zs ← astype_int (fillna_zero (to_numeric s));
  mret (df_set df c (Int64 zs)).

(** [df[cols]]: every name is looked up before anything is assigned *)
Definition df_get_all (df : DataFrame) (cols : list string) : result (list (string * Series)) :=
  mapM (fun c => s ← df_get df c; mret (c, s)) cols.

(** [df[text_columns] = df[text_columns].fillna('').astype(str)] *)
Definition set_text (cols : list string) (df : DataFrame) : result DataFrame :=
  sub ← df_get_all df cols;
  mret (fold_left (fun d '(c, s) => df_set d c (astype_str (fillna_str "" s))) sub df).

Definition preprocess (df : DataFrame) : result DataFrame :=
  df ← set_date "order_date" df;
  df ← set_date "ship_date" df;
  df ← set_date_default "order_date" df;
  df ← set_date_default "ship_date" df;
  df ← set_float "sales" df;
  df ← set_int "quantity" df;
  df ← set_float "discount" df;
  df ← set_float "profit" df;
  df ← set_float "shipping_cost" df;
  df ← set_int "year" df;
  set_text text_columns df.

End Pandas.

(* ===================================================================== *)
(** ** The destination database                                           *)
(* ===================================================================== *)

(** a table: its columns with their affinities, and its rows in rowid order,
    each row holding one value per column *)
Record table := Table {
  tbl_columns : list (string * affinity);
  tbl_rows : list (list sqlvalue)
}.

(** the column list of the [CREATE TABLE] statement of step 4 *)
Definition schema : list (string * affinity) :=
  [("order_id", TEXT); ("order_date", TEXT); ("ship_date", TEXT);
   ("ship_mode", TEXT); ("customer_name", TEXT); ("segment", TEXT);
   ("state", TEXT); ("country", TEXT); ("market", TEXT); ("region", TEXT);
   ("product_id", TEXT); ("category", TEXT); ("sub_category", TEXT);
   ("product_name", TEXT); ("sales", REAL); ("quantity", INTEGER);
   ("discount", REAL); ("profit", REAL); ("shipping_cost", REAL);
   ("order_priority", TEXT); ("year", INTEGER)].

(** the value sqlite3 binds for a cell: NaN is sent as NULL, a [bool] as an
    integer *)
Definition bind_value (v : value) : sqlvalue :=
  match v with
  | VInt z => SInteger z
  | VFloat f => if is_nan f then SNull else SReal f
  | VBool b => SInteger (if b then 1 else 0)
  | VStr s => SText s
  end.

(** the rows of a frame as the parameter lists of the [INSERT], in order *)
Definition frame_rows (df : DataFrame) : list (list (string * sqlvalue)) :=
  map (fun i => map (fun '(c, s) => (c, bind_value (nth i (values s) (VFloat nan)))) df)
      (seq 0 (len df)).

Fixpoint named {A} (c : string) (r : list (string * A)) : option A :=
  match r with
  | [] => None
  | (n, v) :: rest => if String.eqb n c then Some v else named c rest
  end.

(** the type pandas declares for a column when [to_sql] has to create the
    table itself *)
Definition pandas_sql_type (s : Series) : affinity :=
  match s with
  | Int64 _ | Boolean _ => INTEGER
  | Float64 _ => REAL
  | Object _ => TEXT
  end.

Section Sqlite.
Context `{Platform}.

(** the value a column of affinity [a] keeps of a bound value: text in a
    text column, a number in a column of its own class and anything in a
    BLOB column are kept, an integer in a REAL column is made a double, and
    the remaining conversions are the engine's *)
Definition store (a : affinity) (v : sqlvalue) : sqlvalue :=
  match a, v with
  | _, SNull => SNull
  | TEXT, SText _ => v
  | INTEGER, SInteger _ => v
  | NUMERIC, SInteger _ => v
  | REAL, SReal _ => v
  | REAL, SInteger z => SReal (float_of_int z)
  | BLOB, _ => v
  | _, _ => sqlite_convert a v
  end.

(** one inserted row: a column the statement does not name is NULL *)
Definition store_row (cols : list (string * affinity)) (r : list (string * sqlvalue))
  : list sqlvalue :=
  map (fun '(c, a) => match named c r with Some v => store a v | None => SNull end) cols.

Definition append_rows (t : table) (rs : list (list (string * sqlvalue))) : table :=
  Table (tbl_columns t) (tbl_rows t ++ map (store_row (tbl_columns t)) rs).

End Sqlite.

Definition has_column (t : table) (c : string) : bool :=
  match named c (tbl_columns t) with Some _ => true | None => false end.

(* ===================================================================== *)
(** ** The world of one call                                              *)
(* ===================================================================== *)

(** what [pd.read_csv] finds at a path that exists *)
Inductive csv_entry :=
  | CsvFrame (df : DataFrame)      (* a CSV file, as the frame it parses to *)
  | CsvFails (e : exn).            (* a directory, an unreadable or an empty file, ... *)

(** what [sqlite3.connect] finds at a path *)
Inductive db_entry :=
  | DbTables (ts : gmap string table)   (* a database file *)
  | DbNotADatabase                      (* a file that is no database *)
  | DbUnopenable.                       (* a path that cannot be opened or created *)

(** the lines printed to standard output *)
Inductive message :=
  | Reading (csv_file : string)                      (* Reading CSV file: ... *)
  | Loaded (rows : nat) (columns : list string)      (* CSV loaded with ... rows and columns: ... *)
  | Connecting (db_file : string)                    (* Connecting to SQLite database: ... *)
  | Creating (table_name : string)                   (* Creating table: ... *)
  | Writing (table_name : string)                    (* Writing data to table: ... *)
  | Verifying                                        (* Verifying data in SQLite... *)
  | Inserted (row_count : nat) (table_name : string) (* Inserted ... rows into ... *)
  | Created (db_file : string)                       (* SQLite database created successfully: ... *)
  | NotFound (csv_file : string)                     (* Error: CSV file '...' not found. *)
  | ErrorOccurred (e : exn).                         (* An error occurred: ... *)

Record world := World {
  files : gmap string csv_entry;      (* the source paths that exist *)
  dbs : gmap string db_entry;         (* the destination paths *)
  connections : list string;          (* the open connections, latest first *)
  stdout : list message               (* the printed lines, latest first *)
}.

(** a statement: it returns or raises, and leaves a world *)
Definition M (A : Type) : Type := world -> result A * world.

#[global] Instance M_ret : MRet M := fun A a w => (Ok a, w).
#[global] Instance M_bind : MBind M := fun A B f m w =>
  match m w with
  | (Ok a, w') => f a w'
  | (Raise e, w') => (Raise e, w')
  end.

Definition raise {A} (e : exn) : M A := fun w => (Raise e, w).

Definition lift {A} (r : result A) : M A := fun w => (r, w).

Definition print (m : message) : M unit := fun w =>
  (Ok tt, World (files w) (dbs w) (connections w) (m :: stdout w)).

Definition set_dbs (d : gmap string db_entry) (w : world) : world :=
  World (files w) d (connections w) (stdout w).

Definition set_connections (c : list string) (w : world) : world :=
  World (files w) (dbs w) c (stdout w).

(** [pd.read_csv(csv_file)] *)
Definition read_csv (csv_file : string) : M DataFrame := fun w =>
  match files w !! csv_file with
  | None => (Raise FileNotFoundError, w)
  | Some (CsvFails e) => (Raise e, w)
  | Some (CsvFrame df) => (Ok df, w)
  end.

(** [sqlite3.connect(db_file)]: the file is created when it is not there;
    the connection is named by its path *)
Definition connect (db_file : string) : M string := fun w =>
  match dbs w !! db_file with
  | Some DbUnopenable => (Raise (OperationalError UnableToOpen), w)
  | Some _ => (Ok db_file, set_connections (db_file :: connections w) w)
  | None =>
      (Ok db_file,
       set_connections (db_file :: connections w)
         (set_dbs (<[db_file := DbTables ∅]> (dbs w)) w))
  end.

Fixpoint remove_first (c : string) (l : list string) : list string :=
  match l with
  | [] => []
  | x :: r => if String.eqb x c then r else x :: remove_first c r
  end.

(** [conn.close()] *)
Definition close (conn : string) : M unit := fun w =>
  (Ok tt, set_connections (remove_first conn (connections w)) w).

(** [conn.commit()]: no transaction is open after the DDL statement *)
Definition commit (conn : string) : M unit := mret tt.

(** the tables behind a connection *)
Definition tables_of (conn : string) (w : world) : result (gmap string table) :=
  match dbs w !! conn with
  | Some (DbTables ts) => Ok ts
  | Some DbNotADatabase => Raise DatabaseError
  | _ => Raise (OperationalError UnableToOpen)
  end.

Definition set_tables (conn : string) (ts : gmap string table) (w : world) : world :=
  set_dbs (<[conn := DbTables ts]> (dbs w)) w.

Section Converter.
Context `{Platform}.

(** [cursor.execute("CREATE TABLE IF NOT EXISTS {table_name} (...)")] *)
Definition execute_create (conn table_name : string) : M unit := fun w =>
  match tables_of conn w with
  | Raise e => (Raise e, w)
  | Ok ts =>
      if sqlite_table_name_ok table_name then
        match ts !! table_name with
        | Some _ => (Ok tt, w)
        | None => (Ok tt, set_tables conn (<[table_name := Table schema []]> ts) w)
        end
      else (Raise (OperationalError SyntaxError), w)
  end.

(** [df.to_sql(table_name, conn, if_exists='append', index=False)]: one
    [INSERT] naming the columns of the frame, run for every row inside one
    transaction, so that a failure leaves no row behind.  pandas creates the
    table from the dtypes of the frame when it is not there. *)
Definition to_sql (df : DataFrame) (table_name conn : string) : M unit := fun w =>
  match tables_of conn w with
  | Raise e => (Raise e, w)
  | Ok ts =>
      let t := match ts !! table_name with
               | Some t => t
               | None => Table (map (fun '(c, s) => (c, pandas_sql_type s)) df) []
               end in
      match find (fun c => negb (has_column t c)) (column_names df) with
      | Some c => (Raise (OperationalError (NoSuchColumn c)), w)
      | None => (Ok tt, set_tables conn (<[table_name := append_rows t (frame_rows df)]> ts) w)
      end
  end.

(** [cursor.execute("SELECT COUNT( * ) FROM {table_name}")] and
    [cursor.fetchone()[0]] *)
Definition select_count (conn table_name : string) : M nat := fun w =>
  match tables_of conn w with
  | Raise e => (Raise e, w)
  | Ok ts =>
      match ts !! table_name with
      | Some t => (Ok (length (tbl_rows t)), w)
      | None => (Raise (OperationalError NoSuchTable), w)
      end
  end.

(** the body of the [try] statement *)
Definition convert (csv_file db_file table_name : string) : M unit :=
  (* Step 1: Read the CSV file *)
  _ ← print (Reading csv_file);
  df ← read_csv csv_file;
  _ ← print (Loaded (len df) (column_names df));
  (* Step 2: Preprocess data types *)
  df ← lift (preprocess df);
  (* Step 3: Connect to SQLite database *)
  _ ← print (Connecting db_file);
  conn ← connect db_file;
  (* Step 4: Create table with explicit schema *)
  _ ← print (Creating table_name);
  _ ← execute_create conn table_name;
  _ ← commit conn;
  (* Step 5: Write DataFrame to SQLite *)
  _ ← print (Writing table_name);
  _ ← to_sql df table_name conn;
  (* Step 6: Verify the data *)
  _ ← print Verifying;
  row_count ← select_count conn table_name;
  _ ← print (Inserted row_count table_name);
  (* Step 7: Close the connection *)
  _ ← close conn;
  print (Created db_file).

(** [csv_to_sqlite]: the [try] body under its two handlers; an exception
    neither handler takes propagates to the caller *)
Definition csv_to_sqlite (csv_file db_file table_name : string) : M unit := fun w =>
  match convert csv_file db_file table_name w with
  | (Ok tt, w') => (Ok tt, w')
  | (Raise e, w') =>
      if is_FileNotFoundError e then print (NotFound csv_file) w'
      else if is_Exception e then print (ErrorOccurred e) w'
      else (Raise e, w')
  end.

End Converter.

(* ===================================================================== *)
(** ** The specification's notions                                        *)
(* ===================================================================== *)

(** *** Dates in the MM/DD/YYYY textual form *)

(** a field written with [lo] to [hi] decimal digits, and its value *)
Definition field_value (lo hi : Z) (t : string) : option Z :=
  if all_digits t && (lo <=? slen t) && (slen t <=? hi)
  then Some (decimal_value t) else None.

(** the day field: one or two digits, a single digit possibly after a blank
    (the day as C's [%e] pads it, which the pattern takes as well) *)
Definition day_field_value (t : string) : option Z :=
  match t with
  | String c r => if code c =? 32 then field_value 1 1 r else field_value 1 2 t
  | EmptyString => None
  end.

(** [s] is month, day and year separated by slashes: one or two digits for
    the month and the day, four for the year *)
Definition mdy_text (s : string) (m d y : Z) : Prop :=
  exists tm td ty,
    s = tm +:+ "/" +:+ td +:+ "/" +:+ ty /\
    field_value 1 2 tm = Some m /\
    day_field_value td = Some d /\
    field_value 4 4 ty = Some y.

(** the Gregorian leap year rule *)
Definition leap_year (y : Z) : bool :=
  (y mod 4 =? 0) && (negb (y mod 100 =? 0) || (y mod 400 =? 0)).

Definition month_length (y m : Z) : Z :=
  if m =? 2 then (if leap_year y then 29 else 28)
  else if (m =? 4) || (m =? 6) || (m =? 9) || (m =? 11) then 30
  else 31.

(** [y]-[m]-[d] is a day of the calendar *)
Definition gregorian_date (y m d : Z) : bool :=
  (1 <=? m) && (m <=? 12) && (1 <=? d) && (d <=? month_length y m).

(** the order of calendar dates *)
Definition date_leb (a b : Z * Z * Z) : bool :=
  let '(y1, m1, d1) := a in
  let '(y2, m2, d2) := b in
  (y1 <? y2) || ((y1 =? y2) && ((m1 <? m2) || ((m1 =? m2) && (d1 <=? d2)))).

(** the days a nanosecond timestamp holds: 1677-09-22 to 2262-04-11 *)
Definition timestamp_range (y m d : Z) : bool :=
  date_leb (1677, 9, 22) (y, m, d) && date_leb (y, m, d) (2262, 4, 11).

(** [s] is a valid date in the MM/DD/YYYY textual form, namely [y]-[m]-[d] *)
Definition valid_mdy (s : string) (y m d : Z) : Prop :=
  mdy_text s m d y /\ gregorian_date y m d = true /\ timestamp_range y m d = true.

(** the ISO-8601 rendering YYYY-MM-DD *)
Definition iso_8601 (y m d : Z) : string :=
  four_digits y +:+ "-" +:+ two_digits m +:+ "-" +:+ two_digits d.

Definition sentinel_date : string := "1900-01-01".

Definition date_columns : list string := ["order_date"; "ship_date"].

(** *** Numbers and their casts *)

Definition float_columns : list string :=
  ["sales"; "discount"; "profit"; "shipping_cost"].

Definition int_columns : list string := ["quantity"; "year"].

(** a number: an integer or a double that is not NaN *)
Inductive number :=
  | NumInt (z : Z)
  | NumFloat (f : float).

(** the cast to a floating-point column *)
Definition cast_real (n : number) : float :=
  match n with
  | NumInt z => float_of_int z
  | NumFloat f => f
  end.

(** the columns of a schema that have a given affinity *)
Definition columns_of (a : affinity) (cols : list (string * affinity)) : list string :=
  map fst (List.filter (fun p => match snd p, a with
                            | TEXT, TEXT | NUMERIC, NUMERIC | INTEGER, INTEGER
                            | REAL, REAL | BLOB, BLOB => true
                            | _, _ => false
                            end) cols).

Section SpecNotions.
Context `{Platform}.

(** the number the cell in row [i] of a column parses as, if it does *)
Definition parsed_number (s : Series) (i : nat) : option number :=
  match to_numeric s with
  | NInt64 xs => z ← nth_error xs i; Some (NumInt z)
  | NFloat64 xs => f ← nth_error xs i; if is_nan f then None else Some (NumFloat f)
  | NBool xs => b ← nth_error xs i; Some (NumInt (if b : bool then 1 else 0))
  end.

(** the cast to an integer column: the fraction of the exact value is
    dropped, which rounds toward zero *)
Definition cast_integer (n : number) : Z :=
  match n with
  | NumInt z => z
  | NumFloat f =>
      let q := Z.quot (float_num f) (float_den f) in
      if in_int64 q then q else cast_out_of_range f
  end.

(** what the table created in step 4 keeps of the cell of column [c] in
    row [i] of a normalised frame *)
Definition stored_cell (df : DataFrame) (c : string) (i : nat) : option sqlvalue :=
  a ← named c schema;
  v ← cell df c i;
  Some (store a (bind_value v)).

(** the string form of a cell, the empty string for a missing one *)
Definition text_form (v : value) : string :=
  if is_missing v then "" else py_str v.

End SpecNotions.

(** *** Observations of a world *)

Definition lookup_table (w : world) (db_file table_name : string) : option table :=
  match dbs w !! db_file with
  | Some (DbTables ts) => ts !! table_name
  | _ => None
  end.

(** the rows of the destination table, none when it does not exist *)
Definition table_rows (w : world) (db_file table_name : string) : list (list sqlvalue) :=
  match lookup_table w db_file table_name with
  | Some t => tbl_rows t
  | None => []
  end.

(** [SELECT COUNT( * )] on the destination table *)
Definition row_count (w : world) (db_file table_name : string) : nat :=
  length (table_rows w db_file table_name).

(** the number of data rows of the source CSV *)
Definition source_rows (w : world) (csv_file : string) : nat :=
  match files w !! csv_file with
  | Some (CsvFrame df) => len df
  | _ => O
  end.

(** the call printed its last line: the conversion succeeded *)
Definition succeeded (w' : world) (db_file : string) : Prop :=
  head (stdout w') = Some (Created db_file).

(** the count printed by the line "Inserted ... rows into ..." of the call *)
Definition reported_count (w' : world) : option nat :=
  match stdout w' with
  | _ :: Inserted n _ :: _ => Some n
  | _ => None
  end.

(** the columns of the destination table once step 4 has run *)
Definition columns_after_create (w : world) (db_file table_name : string)
  : list (string * affinity) :=
  match lookup_table w db_file table_name with
  | Some t => tbl_columns t
  | None => schema
  end.

(* ===================================================================== *)
(** ** Definitions used by the proofs *)
(* ===================================================================== *)

(** *** The calendar, checked day by day *)

Definition date_eqb (a b : Z * Z * Z) : bool :=
  let '(y1, m1, d1) := a in
  let '(y2, m2, d2) := b in
  (y1 =? y2) && (m1 =? m2) && (d1 =? d2).

(** on one triple: [datetime.date] accepts what the calendar has; an
    accepted date is within the nanosecond bounds exactly in the timestamp
    range, and is then read back from its nanoseconds *)
Definition calendar_check (y m d : Z) : bool :=
  Bool.eqb (date_ok y m d) (gregorian_date y m d) &&
  (if date_ok y m d then
     match datetimestruct_to_ns y m d with
     | Some ns =>
         timestamp_range y m d && date_eqb (ns_to_datetimestruct ns) (y, m, d) &&
         negb (ns =? NaT)
     | None => negb (timestamp_range y m d)
     end
   else true).

Definition range_Z (lo : Z) (n : nat) : list Z := map (fun i => lo + Z.of_nat i) (seq 0 n).

(** [P] on every triple of three ranges *)
Definition forallb3 (P : Z -> Z -> Z -> bool) (ys ms ds : list Z) : bool :=
  forallb (fun y => forallb (fun m => forallb (fun d => P y m d) ds) ms) ys.

(** *** The preprocessing step, column by column *)

Section ColumnResult.
Context `{Platform}.

(** the series a column named [c] ends the preprocessing step with, from the
    series [s] it started with *)
Definition column_result (c : string) (s : Series) : result Series :=
  if existsb (String.eqb c) date_columns then
    Ok (fillna_str "1900-01-01" (dt_strftime (to_datetime s)))
  else if existsb (String.eqb c) float_columns then
    Ok (Series_of (fillna_zero (to_numeric s)))
  else if existsb (String.eqb c) int_columns then
    zs ← astype_int (fillna_zero (to_numeric s)); Ok (Int64 zs)
  else if existsb (String.eqb c) text_columns then
    Ok (astype_str (fillna_str "" s))
  else Ok s.

End ColumnResult.

(** *** A call, path by path *)

(** the line a handler prints for an exception *)
Definition handler_line (csv_file : string) (e : exn) : message :=
  if is_FileNotFoundError e then NotFound csv_file else ErrorOccurred e.

Section Outcome.
Context `{Platform}.

(** The world a call leaves, path by path: [ms] are the lines printed so
    far, latest first. *)
Definition outcome_after_connect (csv_file db_file table_name : string) (df' : DataFrame)
    (ts : gmap string table) (ms : list message) (w : world) : world :=
  let ms := Creating table_name :: ms in
  if sqlite_table_name_ok table_name then
    let t0 := default (Table schema []) (ts !! table_name) in
    let ms := Writing table_name :: ms in
    match find (fun c => negb (has_column t0 c)) (column_names df') with
    | Some c =>
        World (files w) (<[db_file := DbTables (<[table_name := t0]> ts)]> (dbs w))
          (db_file :: connections w)
          (ErrorOccurred (OperationalError (NoSuchColumn c)) :: ms ++ stdout w)
    | None =>
        let t1 := append_rows t0 (frame_rows df') in
        World (files w) (<[db_file := DbTables (<[table_name := t1]> ts)]> (dbs w))
          (connections w)
          (Created db_file :: Inserted (length (tbl_rows t1)) table_name :: Verifying
             :: ms ++ stdout w)
    end
  else
    World (files w) (<[db_file := DbTables ts]> (dbs w)) (db_file :: connections w)
      (ErrorOccurred (OperationalError SyntaxError) :: ms ++ stdout w).

Definition outcome (csv_file db_file table_name : string) (w : world) : world :=
  let ms := [Reading csv_file] in
  match files w !! csv_file with
  | None => World (files w) (dbs w) (connections w) (NotFound csv_file :: ms ++ stdout w)
  | Some (CsvFails e) =>
      World (files w) (dbs w) (connections w) (handler_line csv_file e :: ms ++ stdout w)
  | Some (CsvFrame df) =>
      let ms := Loaded (len df) (column_names df) :: ms in
      match preprocess df with
      | Raise e =>
          World (files w) (dbs w) (connections w) (handler_line csv_file e :: ms ++ stdout w)
      | Ok df' =>
          let ms := Connecting db_file :: ms in
          match dbs w !! db_file with
          | Some DbUnopenable =>
              World (files w) (dbs w) (connections w)
                (ErrorOccurred (OperationalError UnableToOpen) :: ms ++ stdout w)
          | Some DbNotADatabase =>
              World (files w) (dbs w) (db_file :: connections w)
                (ErrorOccurred DatabaseError :: Creating table_name :: ms ++ stdout w)
          | Some (DbTables ts) =>
              outcome_after_connect csv_file db_file table_name df' ts ms w
          | None =>
              outcome_after_connect csv_file db_file table_name df' ∅ ms w
          end
      end
  end.

End Outcome.

(** the tables of the destination before the call, none for a new file *)
Definition tables_before (w : world) (db_file : string) : gmap string table :=
  match dbs w !! db_file with
  | Some (DbTables ts) => ts
  | _ => ∅
  end.

(* ===================================================================== *)
(** ** The script and further notions *)
(* ===================================================================== *)

(** the example usage at the end of the file, under [if __name__ == "__main__"] *)
Definition main `{Platform} : M unit :=
  let csv_file := "data/SuperStoreOrders.csv" in
  let db_file := "data/SuperStoreOrders.db" in
  let table_name := "orders" in
  csv_to_sqlite csv_file db_file table_name.

(** an infinite double *)
Definition is_infinite (f : float) : bool :=
  match f with S754_infinity _ => true | _ => false end.

(** a numeric column without an infinite element *)
Definition no_infinity (n : Numeric) : bool :=
  match n with
  | NFloat64 xs => negb (existsb is_infinite xs)
  | NInt64 _ | NBool _ => true
  end.

(** a stored value is of the storage class that a column of affinity [a] declares *)
Definition of_declared_type (a : affinity) (v : sqlvalue) : bool :=
  match a, v with
  | TEXT, SText _ | REAL, SReal _ | INTEGER, SInteger _ => true
  | _, _ => false
  end.

(** the order of calendar dates as a comparison *)
Definition date_compare (a b : Z * Z * Z) : comparison :=
  let '(y1, m1, d1) := a in
  let '(y2, m2, d2) := b in
  match y1 ?= y2 with
  | Eq => match m1 ?= m2 with Eq => d1 ?= d2 | c => c end
  | c => c
  end.

(** the lines that end the output of a call *)
Definition is_closing (m : message) : bool :=
  match m with
  | Created _ | NotFound _ | ErrorOccurred _ => true
  | _ => false
  end.

(** a source that lacks most columns of the schema *)
Definition short_frame : DataFrame :=
  [("order_id", Int64 [1]); ("order_date", Object [OStr "1/1/1900"])].

Definition short_world : world :=
  World {[ "short.csv" := CsvFrame short_frame ]} ∅ [] [].

(* ===================================================================== *)
(** ** Examples *)
(* ===================================================================== *)

(** a source of two data rows *)
Definition example_frame : DataFrame :=
  [("order_id", Int64 [123; 124]);
   ("order_date", Object [OStr "3/5/2014"; OStr "2014-03-05"]);
   ("ship_date", Object [OStr "13/1/2014"; OFloat nan]);
   ("ship_mode", Object [OStr "First Class"; OFloat nan]);
   ("customer_name", Object [OStr "A. Smith"; OStr "B. Jones"]);
   ("segment", Object [OStr "Consumer"; OStr "Corporate"]);
   ("state", Object [OStr "Texas"; OStr "Ohio"]);
   ("country", Object [OStr "United States"; OStr "United States"]);
   ("market", Object [OStr "US"; OStr "US"]);
   ("region", Object [OStr "Central"; OStr "East"]);
   ("product_id", Object [OStr "OFF-PA-1"; OStr "TEC-PH-2"]);
   ("category", Object [OStr "Office Supplies"; OStr "Technology"]);
   ("sub_category", Object [OStr "Paper"; OStr "Phones"]);
   ("product_name", Object [OStr "Paper, A4"; OStr "Phone"]);
   ("sales", Object [OStr "261.96"; OStr "n/a"]);
   ("quantity", Object [OStr "3.9"; OStr "abc"]);
   ("discount", Int64 [0; 1]);
   ("profit", Float64 [nan; S754_zero false]);
   ("shipping_cost", Object [OStr "35"; OStr "4"]);
   ("order_priority", Object [OStr "High"; OStr "Low"]);
   ("year", Int64 [2014; 2014])].

(** the same source with one column more *)
Definition extra_frame : DataFrame :=
  (example_frame ++ [("notes", Object [OStr "first"; OStr "second"])])%list.

(** a world with the two sources and no destination yet *)
Definition example_world : world :=
  World {[ "orders.csv" := CsvFrame example_frame; "extra.csv" := CsvFrame extra_frame ]}
        ∅ [] [].

Definition extra_frame_normalized : DataFrame :=
  Eval vm_compute in
    match preprocess (H := sample_platform) extra_frame with
    | Ok df => df
    | Raise _ => []
    end.

Definition example_normalized : DataFrame :=
  Eval vm_compute in
    match preprocess (H := sample_platform) example_frame with
    | Ok df => df
    | Raise _ => []
    end.

(** C1 on the example: the order date 3/5/2014 of the first row. *)

(** the world after one conversion of the example source, and after two *)
Definition converted_once : world :=
  snd (csv_to_sqlite (H := sample_platform) "orders.csv" "orders.db" "orders" example_world).

Definition converted_twice : world :=
  snd (csv_to_sqlite (H := sample_platform) "orders.csv" "orders.db" "orders" converted_once).

(** the example source with other dates: a day before the first timestamp,
    and a date followed by a time of day *)
Definition dated_frame : DataFrame :=
  df_set example_frame "order_date" (Object [OStr "1/1/1600"; OStr "3/5/2014 10:30"]).

Definition dated_normalized : DataFrame :=
  Eval vm_compute in
    match preprocess (H := sample_platform) dated_frame with
    | Ok df => df
    | Raise _ => []
    end.

(** C5 on the example: two data rows into a new table. *)

(* ===================================================================== *)
(** ** Characters and the matchers of the format *)
(* ===================================================================== *)

Lemma in_class_spec lo hi c : in_class lo hi c = true <-> lo <= code c <= hi.
Proof. unfold in_class. rewrite andb_true_iff, !Z.leb_le. tauto. Qed.

Lemma in_class_false lo hi c : in_class lo hi c = false <-> code c < lo \/ hi < code c.
Proof.
  unfold in_class. rewrite andb_false_iff, !Z.leb_gt. tauto.
Qed.

Lemma is_digit_spec c : is_digit c = true <-> 0 <= digit_val c <= 9.
Proof. unfold is_digit, digit_val. rewrite in_class_spec. lia. Qed.

Lemma orelse_Some {R} (x y : option R) r :
  orelse x y = Some r -> x = Some r \/ (x = None /\ y = Some r).
Proof. destruct x; simpl; intros; [left | right]; auto. Qed.

Lemma alt2_Some {R} lo1 hi1 lo2 hi2 val s (k : Z -> string -> option R) r :
  alt2 lo1 hi1 lo2 hi2 val s k = Some r ->
  exists c1 c2 rest,
    s = String c1 (String c2 rest) /\
    lo1 <= code c1 <= hi1 /\ lo2 <= code c2 <= hi2 /\
    k (val c1 c2) rest = Some r.
Proof.
  unfold alt2. destruct s as [|c1 [|c2 rest]]; try discriminate.
  destruct (in_class lo1 hi1 c1) eqn:E1; try discriminate.
  destruct (in_class lo2 hi2 c2) eqn:E2; try discriminate.
  simpl. intros Hk. exists c1, c2, rest.
  apply in_class_spec in E1. apply in_class_spec in E2. auto.
Qed.

Lemma alt1_Some {R} lo hi s (k : Z -> string -> option R) r :
  alt1 lo hi s k = Some r ->
  exists c rest, s = String c rest /\ lo <= code c <= hi /\ k (digit_val c) rest = Some r.
Proof.
  unfold alt1. destruct s as [|c rest]; try discriminate.
  destruct (in_class lo hi c) eqn:E; try discriminate.
  intros Hk. exists c, rest. apply in_class_spec in E. auto.
Qed.

Lemma field_value_1 c : is_digit c = true ->
  field_value 1 2 (String c EmptyString) = Some (digit_val c).
Proof.
  intros Hc. unfold field_value. simpl. rewrite Hc. reflexivity.
Qed.

Lemma field_value_2 c1 c2 : is_digit c1 = true -> is_digit c2 = true ->
  field_value 1 2 (String c1 (String c2 EmptyString)) = Some (two_val c1 c2).
Proof.
  intros H1 H2. unfold field_value. simpl. rewrite H1, H2. reflexivity.
Qed.

Lemma digit_of_class lo hi c : 48 <= lo -> hi <= 57 -> lo <= code c <= hi -> is_digit c = true.
Proof. intros. apply in_class_spec. lia. Qed.

(** a match of [%m] consumes a month field *)
Lemma re_m_sound {R} s (k : Z -> string -> option R) r :
  re_m s k = Some r ->
  exists tm rest m, s = tm +:+ rest /\ field_value 1 2 tm = Some m /\ k m rest = Some r.
Proof.
  unfold re_m. intros Hm.
  apply orelse_Some in Hm as [Hm | [_ Hm]];
    [| apply orelse_Some in Hm as [Hm | [_ Hm]]].
  1,2: apply alt2_Some in Hm as (c1 & c2 & rest & -> & H1 & H2 & Hk);
       exists (String c1 (String c2 EmptyString)), rest, (two_val c1 c2);
       split; [reflexivity | split; [| exact Hk]];
       apply field_value_2; eapply digit_of_class; eauto; lia.
  apply alt1_Some in Hm as (c & rest & -> & H1 & Hk).
  exists (String c EmptyString), rest, (digit_val c).
  split; [reflexivity | split; [| exact Hk]].
  apply field_value_1. eapply digit_of_class; eauto; lia.
Qed.

Lemma day_field_value_digits t d :
  field_value 1 2 t = Some d -> day_field_value t = Some d.
Proof.
  unfold day_field_value. destruct t as [|c r]; [discriminate|].
  destruct (code c =? 32) eqn:E; [| auto].
  unfold field_value. simpl. apply Z.eqb_eq in E.
  assert (is_digit c = false) as ->; [| discriminate].
  unfold is_digit. apply in_class_false. lia.
Qed.

(** a match of [%d] consumes a day field *)
Lemma re_d_sound {R} s (k : Z -> string -> option R) r :
  re_d s k = Some r ->
  exists td rest d, s = td +:+ rest /\ day_field_value td = Some d /\ k d rest = Some r.
Proof.
  unfold re_d. intros Hd.
  apply orelse_Some in Hd as [Hd | [_ Hd]];
    [| apply orelse_Some in Hd as [Hd | [_ Hd]];
       [| apply orelse_Some in Hd as [Hd | [_ Hd]];
          [| apply orelse_Some in Hd as [Hd | [_ Hd]]]]].
  1,2,3: apply alt2_Some in Hd as (c1 & c2 & rest & -> & H1 & H2 & Hk);
       exists (String c1 (String c2 EmptyString)), rest, (two_val c1 c2);
       split; [reflexivity | split; [| exact Hk]];
       apply day_field_value_digits, field_value_2; eapply digit_of_class; eauto; lia.
  - apply alt1_Some in Hd as (c & rest & -> & H1 & Hk).
    exists (String c EmptyString), rest, (digit_val c).
    split; [reflexivity | split; [| exact Hk]].
    apply day_field_value_digits, field_value_1. eapply digit_of_class; eauto; lia.
  - apply alt2_Some in Hd as (c1 & c2 & rest & -> & H1 & H2 & Hk).
    exists (String c1 (String c2 EmptyString)), rest, (digit_val c2).
    split; [reflexivity | split; [| exact Hk]].
    unfold day_field_value.
    assert ((code c1 =? 32) = true) as -> by (apply Z.eqb_eq; lia).
    unfold field_value. simpl.
    assert (is_digit c2 = true) as -> by (eapply digit_of_class; eauto; lia).
    reflexivity.
Qed.

(** a match of [%Y] consumes a year field *)
Lemma re_Y_sound {R} s (k : Z -> string -> option R) r :
  re_Y s k = Some r ->
  exists ty rest y, s = ty +:+ rest /\ field_value 4 4 ty = Some y /\ k y rest = Some r.
Proof.
  unfold re_Y. destruct s as [|c1 [|c2 [|c3 [|c4 rest]]]]; try discriminate.
  destruct (is_digit c1) eqn:E1; try discriminate.
  destruct (is_digit c2) eqn:E2; try discriminate.
  destruct (is_digit c3) eqn:E3; try discriminate.
  destruct (is_digit c4) eqn:E4; try discriminate.
  simpl. intros Hk.
  exists (String c1 (String c2 (String c3 (String c4 EmptyString)))), rest.
  eexists. split; [reflexivity | split; [| exact Hk]].
  unfold field_value. simpl. rewrite E1, E2, E3, E4. simpl.
  f_equal. unfold decimal_value. simpl. lia.
Qed.

Lemma re_slash_Some {R} s (k : string -> option R) r :
  re_slash s k = Some r -> exists rest, s = "/" +:+ rest /\ k rest = Some r.
Proof.
  unfold re_slash. destruct s as [|c rest]; try discriminate.
  destruct (code c =? 47) eqn:E; try discriminate.
  intros Hk. exists rest. split; [| exact Hk].
  apply Z.eqb_eq in E.
  unfold code in E. apply (f_equal Z.to_N) in E. rewrite N2Z.id in E.
  apply (f_equal ascii_of_N) in E. rewrite ascii_N_embedding in E.
  subst c. reflexivity.
Qed.

Lemma append_assoc (a b c : string) : (a +:+ b) +:+ c = a +:+ (b +:+ c).
Proof.
  induction a as [|x a IH]; [reflexivity|].
  change (String x ((a +:+ b) +:+ c) = String x (a +:+ (b +:+ c))). now rewrite IH.
Qed.

Lemma append_nil_r (a : string) : a +:+ "" = a.
Proof.
  induction a as [|x a IH]; [reflexivity|].
  change (String x (a +:+ "") = String x a). now rewrite IH.
Qed.

(** a text the format matches whole is month/day/year *)
Lemma format_regex_match_sound s m d y :
  format_regex_match s = Some (m, d, y, EmptyString) -> mdy_text s m d y.
Proof.
  unfold format_regex_match. intros Hs.
  apply re_m_sound in Hs as (tm & r1 & m' & -> & Hm & Hs).
  apply re_slash_Some in Hs as (r2 & -> & Hs).
  apply re_d_sound in Hs as (td & r3 & d' & -> & Hd & Hs).
  apply re_slash_Some in Hs as (r4 & -> & Hs).
  apply re_Y_sound in Hs as (ty & rest & y' & -> & Hy & Hs).
  inversion Hs; subst. rewrite append_nil_r.
  exists tm, td, ty. auto.
Qed.

Lemma code_slash : code "/" = 47.
Proof. reflexivity. Qed.

Lemma field_value_Some lo hi t v :
  field_value lo hi t = Some v ->
  all_digits t = true /\ lo <= slen t <= hi /\ v = decimal_value t.
Proof.
  unfold field_value.
  destruct (all_digits t); simpl; [| discriminate].
  destruct (lo <=? slen t) eqn:E1; simpl; [| discriminate].
  destruct (slen t <=? hi) eqn:E2; [| discriminate].
  intros [= <-]. apply Z.leb_le in E1. apply Z.leb_le in E2. auto.
Qed.

Lemma slen_cons c r : slen (String c r) = slen r + 1.
Proof. unfold slen. simpl String.length. lia. Qed.

Lemma slen_nonneg r : 0 <= slen r.
Proof. unfold slen. lia. Qed.

Lemma slen_nil : slen EmptyString = 0.
Proof. reflexivity. Qed.

Ltac slen_lia :=
  rewrite ?slen_cons, ?slen_nil in *;
  repeat match goal with
         | |- context [slen ?r] => let H := fresh in pose proof (slen_nonneg r) as H; revert H
         | H : context [slen ?r] |- _ =>
             lazymatch goal with
             | _ : 0 <= slen r |- _ => fail
             | _ => pose proof (slen_nonneg r)
             end
         end; intros; lia.

(** the shapes of a field of one or two digits *)
Lemma field_value_12_inv t v :
  field_value 1 2 t = Some v ->
  (exists c, t = String c EmptyString /\ 0 <= digit_val c <= 9 /\ v = digit_val c) \/
  (exists c1 c2, t = String c1 (String c2 EmptyString) /\
     0 <= digit_val c1 <= 9 /\ 0 <= digit_val c2 <= 9 /\ v = two_val c1 c2).
Proof.
  intros Hf. apply field_value_Some in Hf as (Hd & Hl & ->).
  destruct t as [|c1 [|c2 [|c3 r]]]; simpl in Hd.
  - exfalso. slen_lia.
  - left. exists c1. rewrite andb_true_r in Hd. apply is_digit_spec in Hd.
    unfold decimal_value. simpl. auto.
  - right. exists c1, c2. rewrite andb_true_r in Hd.
    apply andb_true_iff in Hd as [E1 E2].
    apply is_digit_spec in E1. apply is_digit_spec in E2.
    unfold decimal_value, two_val. simpl. repeat split; lia.
  - exfalso. slen_lia.
Qed.

Ltac class_true := apply in_class_spec; unfold two_val, digit_val in *; lia.
Ltac class_false := apply in_class_false; unfold two_val, digit_val in *; rewrite ?code_slash; lia.

(** the month field of a calendar month, followed by a slash, is what [%m]
    matches first *)
Lemma re_m_complete {R} tm m rest (k : Z -> string -> option R) r :
  field_value 1 2 tm = Some m -> 1 <= m <= 12 ->
  k m (String "/" rest) = Some r ->
  re_m (tm +:+ String "/" rest) k = Some r.
Proof.
  intros Hf Hm Hk.
  apply field_value_12_inv in Hf
    as [(c & -> & Hc & ->) | (c1 & c2 & -> & H1 & H2 & ->)].
  - change (String c "" +:+ String "/" rest) with (String c (String "/" rest)).
    unfold re_m, alt2, alt1.
    assert (in_class 48 50 "/" = false) as -> by class_false.
    assert (in_class 49 57 "/" = false) as -> by class_false.
    rewrite !andb_false_r. simpl.
    assert (in_class 49 57 c = true) as -> by class_true.
    simpl; rewrite Hk; reflexivity.
  - change (String c1 (String c2 "") +:+ String "/" rest)
      with (String c1 (String c2 (String "/" rest))).
    unfold re_m, alt2.
    destruct (in_class 49 49 c1) eqn:E1.
    + apply in_class_spec in E1.
      assert (in_class 48 50 c2 = true) as -> by class_true.
      simpl; rewrite Hk; reflexivity.
    + apply in_class_false in E1.
      assert (in_class 48 48 c1 = true) as -> by class_true.
      assert (in_class 49 57 c2 = true) as -> by class_true.
      simpl; rewrite Hk; reflexivity.
Qed.

Lemma day_field_value_inv t v :
  day_field_value t = Some v ->
  field_value 1 2 t = Some v \/
  (exists c, t = String " " (String c EmptyString) /\ 0 <= digit_val c <= 9 /\ v = digit_val c).
Proof.
  unfold day_field_value. destruct t as [|c0 r]; [discriminate|].
  destruct (code c0 =? 32) eqn:E; [| auto].
  intros Hv. right.
  assert (c0 = " "%char) as ->.
  { apply Z.eqb_eq in E. unfold code in E. apply (f_equal Z.to_N) in E.
    rewrite N2Z.id in E. apply (f_equal ascii_of_N) in E.
    rewrite ascii_N_embedding in E. exact E. }
  apply field_value_Some in Hv as (Hd & Hl & ->).
  destruct r as [|c [|c' r']]; simpl in Hd.
  - exfalso. slen_lia.
  - exists c. rewrite andb_true_r in Hd. apply is_digit_spec in Hd.
    unfold decimal_value. simpl. auto.
  - exfalso. slen_lia.
Qed.

Lemma code_space : code " " = 32.
Proof. reflexivity. Qed.

(** the day field of a day of the month, followed by a slash, is what [%d]
    matches first *)
Lemma re_d_complete {R} td d rest (k : Z -> string -> option R) r :
  day_field_value td = Some d -> 1 <= d <= 31 ->
  k d (String "/" rest) = Some r ->
  re_d (td +:+ String "/" rest) k = Some r.
Proof.
  intros Hf Hd Hk.
  apply day_field_value_inv in Hf as [Hf | (c & -> & Hc & ->)].
  - apply field_value_12_inv in Hf
      as [(c & -> & Hc & ->) | (c1 & c2 & -> & H1 & H2 & ->)].
    + change (String c "" +:+ String "/" rest) with (String c (String "/" rest)).
      unfold re_d, alt2, alt1.
      assert (in_class 48 49 "/" = false) as -> by class_false.
      assert (in_class 48 57 "/" = false) as -> by class_false.
      assert (in_class 49 57 "/" = false) as -> by class_false.
      rewrite !andb_false_r. simpl.
      assert (in_class 49 57 c = true) as -> by class_true.
      simpl; rewrite Hk; reflexivity.
    + change (String c1 (String c2 "") +:+ String "/" rest)
        with (String c1 (String c2 (String "/" rest))).
      unfold re_d, alt2.
      destruct (in_class 51 51 c1) eqn:E1.
      { apply in_class_spec in E1.
        assert (in_class 48 49 c2 = true) as -> by class_true.
        simpl; rewrite Hk; reflexivity. }
      apply in_class_false in E1. simpl.
      destruct (in_class 49 50 c1) eqn:E2.
      { assert (in_class 48 57 c2 = true) as -> by class_true.
        simpl; rewrite Hk; reflexivity. }
      apply in_class_false in E2. simpl.
      assert (in_class 48 48 c1 = true) as -> by class_true.
      assert (in_class 49 57 c2 = true) as -> by class_true.
      simpl; rewrite Hk; reflexivity.
  - change (String " " (String c "") +:+ String "/" rest)
      with (String " " (String c (String "/" rest))).
    unfold re_d, alt2, alt1.
    assert (in_class 51 51 " " = false) as -> by (apply in_class_false; rewrite code_space; lia).
    assert (in_class 49 50 " " = false) as -> by (apply in_class_false; rewrite code_space; lia).
    assert (in_class 48 48 " " = false) as -> by (apply in_class_false; rewrite code_space; lia).
    assert (in_class 49 57 " " = false) as -> by (apply in_class_false; rewrite code_space; lia).
    assert (in_class 32 32 " " = true) as -> by (apply in_class_spec; rewrite code_space; lia).
    assert (in_class 49 57 c = true) as -> by class_true.
    unfold snd_val. simpl; rewrite Hk; reflexivity.
Qed.

Lemma field_value_4_inv t v :
  field_value 4 4 t = Some v ->
  exists c1 c2 c3 c4,
    t = String c1 (String c2 (String c3 (String c4 EmptyString))) /\
    is_digit c1 = true /\ is_digit c2 = true /\ is_digit c3 = true /\ is_digit c4 = true /\
    v = 1000 * digit_val c1 + 100 * digit_val c2 + 10 * digit_val c3 + digit_val c4.
Proof.
  intros Hf. apply field_value_Some in Hf as (Hd & Hl & ->).
  destruct t as [|c1 [|c2 [|c3 [|c4 [|c5 r]]]]]; simpl in Hd;
    try (exfalso; slen_lia).
  rewrite andb_true_r in Hd.
  apply andb_true_iff in Hd as [E1 Hd].
  apply andb_true_iff in Hd as [E2 Hd].
  apply andb_true_iff in Hd as [E3 E4].
  exists c1, c2, c3, c4. repeat split; auto.
  unfold decimal_value. simpl. lia.
Qed.

Lemma re_Y_complete {R} ty y (k : Z -> string -> option R) :
  field_value 4 4 ty = Some y -> re_Y ty k = k y EmptyString.
Proof.
  intros Hf. apply field_value_4_inv in Hf as (c1 & c2 & c3 & c4 & -> & H1 & H2 & H3 & H4 & ->).
  unfold re_Y. rewrite H1, H2, H3, H4. reflexivity.
Qed.

(** month/day/year of a calendar day is what the format matches, whole *)
Lemma format_regex_match_complete s m d y :
  mdy_text s m d y -> 1 <= m <= 12 -> 1 <= d <= 31 ->
  format_regex_match s = Some (m, d, y, EmptyString).
Proof.
  intros (tm & td & ty & -> & Hm & Hd & Hy) Rm Rd.
  unfold format_regex_match.
  change (tm +:+ "/" +:+ td +:+ "/" +:+ ty)
    with (tm +:+ String "/" (td +:+ String "/" ty)).
  eapply re_m_complete; eauto.
  unfold re_slash at 1. rewrite code_slash. simpl.
  eapply re_d_complete; eauto.
  unfold re_slash. rewrite code_slash. simpl.
  erewrite re_Y_complete; eauto.
Qed.

(* ===================================================================== *)
(** ** The calendar and the timestamp of a day *)
(* ===================================================================== *)

Lemma In_range_Z lo n z : lo <= z < lo + Z.of_nat n -> In z (range_Z lo n).
Proof.
  intros Hz. unfold range_Z. apply in_map_iff.
  exists (Z.to_nat (z - lo)). split; [lia|].
  apply in_seq. lia.
Qed.

Lemma forallb3_In P ys ms ds y m d :
  forallb3 P ys ms ds = true -> In y ys -> In m ms -> In d ds -> P y m d = true.
Proof.
  unfold forallb3. intros HP Hy Hm Hd.
  rewrite forallb_forall in HP. specialize (HP y Hy).
  rewrite forallb_forall in HP. specialize (HP m Hm).
  rewrite forallb_forall in HP. exact (HP d Hd).
Qed.

(** the check holds on every day of the years 1677 to 2262 *)
Lemma calendar_table_ok :
  forallb3 calendar_check (range_Z 1677 586) (range_Z 1 12) (range_Z 1 31) = true.
Proof. vm_cast_no_check (eq_refl true). Qed.

Lemma calendar_check_ok y m d :
  1677 <= y <= 2262 -> 1 <= m <= 12 -> 1 <= d <= 31 -> calendar_check y m d = true.
Proof.
  intros Hy Hm Hd.
  apply (forallb3_In calendar_check _ _ _ y m d calendar_table_ok);
    apply In_range_Z; lia.
Qed.

Lemma date_ok_bounds y m d :
  date_ok y m d = true -> 1 <= y <= 9999 /\ 1 <= m <= 12 /\ 1 <= d <= 31.
Proof.
  unfold date_ok. rewrite !andb_true_iff, !Z.leb_le.
  intros [[[[[? ?] ?] ?] ?] Hd].
  assert (m = 1 \/ m = 2 \/ m = 3 \/ m = 4 \/ m = 5 \/ m = 6 \/
          m = 7 \/ m = 8 \/ m = 9 \/ m = 10 \/ m = 11 \/ m = 12) as Hm by lia.
  repeat split; try lia.
  destruct (is_leapyear y);
    repeat (destruct Hm as [-> | Hm]; [simpl in Hd; lia |]); subst; simpl in Hd; lia.
Qed.

Lemma month_days_bound leap m :
  1 <= m <= 12 ->
  0 <= fold_right Z.add 0 (firstn (Z.to_nat (m - 1)) (days_per_month_table leap)) <= 335.
Proof.
  intros Hm.
  assert (m = 1 \/ m = 2 \/ m = 3 \/ m = 4 \/ m = 5 \/ m = 6 \/
          m = 7 \/ m = 8 \/ m = 9 \/ m = 10 \/ m = 11 \/ m = 12) as H by lia.
  destruct leap;
    repeat (destruct H as [-> | H]; [vm_compute; split; discriminate |]);
    subst; vm_compute; split; discriminate.
Qed.

(** a date within the nanosecond bounds lies in the years 1677 to 2262 *)
Lemma in_bounds_year y m d ns :
  date_ok y m d = true -> datetimestruct_to_ns y m d = Some ns -> 1677 <= y <= 2262.
Proof.
  intros Hok Hns. apply date_ok_bounds in Hok as (Hy & Hm & Hd).
  unfold datetimestruct_to_ns in Hns.
  destruct ((int64_min <? _) && _) eqn:E; [| discriminate].
  apply andb_true_iff in E as [E1 E2]. apply Z.ltb_lt in E1. apply Z.leb_le in E2.
  unfold get_datetimestruct_days in E1, E2.
  pose proof (month_days_bound (is_leapyear y) m Hm) as Hs.
  set (s := fold_right Z.add 0 _) in *. clearbody s.
  change int64_min with (-9223372036854775808) in E1.
  change int64_max with 9223372036854775807 in E2.
  change ns_per_day with 86400000000000 in E1, E2.
  destruct (0 <=? (y - 1970) * 365) eqn:Es.
  - apply Z.leb_le in Es. cbv zeta in E1, E2.
    Z.to_euclidean_division_equations. lia.
  - apply Z.leb_gt in Es. cbv zeta in E1, E2.
    Z.to_euclidean_division_equations. lia.
Qed.

Lemma date_eqb_eq a b : date_eqb a b = true -> a = b.
Proof.
  destruct a as [[y1 m1] d1], b as [[y2 m2] d2]. unfold date_eqb.
  rewrite !andb_true_iff, !Z.eqb_eq. intros [[-> ->] ->]. reflexivity.
Qed.

Lemma timestamp_range_year y m d : timestamp_range y m d = true -> 1677 <= y <= 2262.
Proof.
  unfold timestamp_range, date_leb.
  rewrite andb_true_iff, !orb_true_iff, !andb_true_iff, !Z.ltb_lt, !Z.eqb_eq.
  lia.
Qed.

Lemma gregorian_date_bounds y m d :
  gregorian_date y m d = true -> 1 <= m <= 12 /\ 1 <= d <= 31.
Proof.
  unfold gregorian_date, month_length. rewrite !andb_true_iff, !Z.leb_le.
  intros [[[? ?] ?] Hd].
  destruct (m =? 2); [destruct (leap_year y); lia |].
  destruct ((m =? 4) || (m =? 6) || (m =? 9) || (m =? 11)); lia.
Qed.

(** what the calendar check says of a date [datetime.date] accepts *)
Lemma calendar_check_inv y m d :
  calendar_check y m d = true -> date_ok y m d = true ->
  gregorian_date y m d = true /\
  match datetimestruct_to_ns y m d with
  | Some ns => timestamp_range y m d = true /\ ns_to_datetimestruct ns = (y, m, d) /\ ns <> NaT
  | None => timestamp_range y m d = false
  end.
Proof.
  unfold calendar_check. intros Hc Hok. rewrite Hok in Hc.
  apply andb_true_iff in Hc as [Hg Hc].
  split; [symmetry; apply eqb_prop, Hg |].
  destruct (datetimestruct_to_ns y m d) as [ns|].
  - apply andb_true_iff in Hc as [Hc Hn]. apply andb_true_iff in Hc as [Hr He].
    repeat split; auto using date_eqb_eq.
    apply negb_true_iff, Z.eqb_neq in Hn. exact Hn.
  - apply negb_true_iff in Hc. exact Hc.
Qed.

(** a valid date in the textual form is parsed to the timestamp of its day *)
Lemma strptime_valid s y m d :
  valid_mdy s y m d ->
  strptime_coerce s <> NaT /\ strftime_Ymd (strptime_coerce s) = iso_8601 y m d.
Proof.
  intros (Ht & Hg & Hr).
  pose proof (timestamp_range_year _ _ _ Hr) as Hy.
  pose proof (gregorian_date_bounds _ _ _ Hg) as [Hm Hd].
  pose proof (calendar_check_ok y m d Hy Hm Hd) as Hc.
  assert (date_ok y m d = true) as Hok.
  { unfold calendar_check in Hc. apply andb_true_iff in Hc as [Hc _].
    apply eqb_prop in Hc. congruence. }
  destruct (calendar_check_inv _ _ _ Hc Hok) as [_ Hn].
  unfold strptime_coerce.
  rewrite (format_regex_match_complete s m d y Ht Hm Hd), Hok.
  destruct (datetimestruct_to_ns y m d) as [ns|]; [| congruence].
  destruct Hn as (_ & Hrt & Hnat). split; [exact Hnat |].
  unfold strftime_Ymd. rewrite Hrt. reflexivity.
Qed.

(** a text that is parsed is a valid date in the textual form *)
Lemma strptime_parsed s :
  strptime_coerce s <> NaT -> exists y m d, valid_mdy s y m d.
Proof.
  unfold strptime_coerce.
  destruct (format_regex_match s) as [[[[m d] y] rest]|] eqn:Hs; [| congruence].
  destruct rest; [| congruence].
  destruct (date_ok y m d) eqn:Hok; [| congruence].
  destruct (datetimestruct_to_ns y m d) as [ns|] eqn:Hns; [| congruence].
  intros _. exists y, m, d.
  pose proof (in_bounds_year _ _ _ _ Hok Hns) as Hy.
  pose proof (date_ok_bounds _ _ _ Hok) as (_ & Hm & Hd).
  pose proof (calendar_check_ok y m d Hy Hm Hd) as Hc.
  destruct (calendar_check_inv _ _ _ Hc Hok) as [Hg Hr]. rewrite Hns in Hr.
  split; [apply format_regex_match_sound, Hs | split; [exact Hg | apply Hr]].
Qed.

(* ===================================================================== *)
(** ** Frames and the preprocessing step *)
(* ===================================================================== *)

Lemma df_get_set_eq df c s : df_get (df_set df c s) c = Ok s.
Proof.
  induction df as [|[n s0] rest IH]; simpl.
  - rewrite String.eqb_refl. reflexivity.
  - destruct (String.eqb n c) eqn:E; simpl; rewrite E; auto.
Qed.

Lemma df_get_set_ne df c c' s : c <> c' -> df_get (df_set df c s) c' = df_get df c'.
Proof.
  intros Hne. induction df as [|[n s0] rest IH]; simpl.
  - apply String.eqb_neq in Hne. rewrite Hne. reflexivity.
  - destruct (String.eqb n c) eqn:E; simpl.
    + apply String.eqb_eq in E. subst n.
      apply String.eqb_neq in Hne. rewrite Hne. reflexivity.
    + destruct (String.eqb n c'); auto.
Qed.

Lemma df_get_set df c c' s :
  df_get (df_set df c s) c' = if String.eqb c c' then Ok s else df_get df c'.
Proof.
  destruct (String.eqb_spec c c') as [<- | Hne].
  - apply df_get_set_eq.
  - apply df_get_set_ne, Hne.
Qed.

Lemma column_names_set df c s s0 :
  df_get df c = Ok s0 -> column_names (df_set df c s) = column_names df.
Proof.
  induction df as [|[n s1] rest IH]; simpl; [discriminate|].
  destruct (String.eqb n c) eqn:E; simpl; [reflexivity|].
  intros Hg. f_equal. apply IH, Hg.
Qed.

Section Preprocess.
Context `{Platform}.

(** one assignment [df[c] = f(df[c])] *)
Lemma assign_column (f : Series -> result Series) c df df1 :
  (s ← df_get df c; s' ← f s; mret (df_set df c s')) = Ok df1 ->
  column_names df1 = column_names df /\
  forall c', df_get df1 c' =
             df_get df c' ≫= (fun s => if String.eqb c' c then f s else Ok s).
Proof.
  destruct (df_get df c) as [s|e] eqn:Hg; simpl; [| discriminate].
  destruct (f s) as [s'|e] eqn:Hf; simpl; [| discriminate].
  intros [= <-]. split.
  - eapply column_names_set, Hg.
  - intros c'. rewrite df_get_set, String.eqb_sym.
    destruct (String.eqb_spec c' c) as [-> | Hne].
    + rewrite Hg. simpl. rewrite Hf. reflexivity.
    + destruct (df_get df c'); reflexivity.
Qed.

Lemma set_date_get c df df1 :
  set_date c df = Ok df1 ->
  column_names df1 = column_names df /\
  forall c', df_get df1 c' =
             df_get df c' ≫= (fun s => if String.eqb c' c
                                       then Ok (dt_strftime (to_datetime s)) else Ok s).
Proof. apply (assign_column (fun s => Ok (dt_strftime (to_datetime s)))). Qed.

Lemma set_date_default_get c df df1 :
  set_date_default c df = Ok df1 ->
  column_names df1 = column_names df /\
  forall c', df_get df1 c' =
             df_get df c' ≫= (fun s => if String.eqb c' c
                                       then Ok (fillna_str "1900-01-01" s) else Ok s).
Proof. apply (assign_column (fun s => Ok (fillna_str "1900-01-01" s))). Qed.

Lemma set_float_get c df df1 :
  set_float c df = Ok df1 ->
  column_names df1 = column_names df /\
  forall c', df_get df1 c' =
             df_get df c' ≫= (fun s => if String.eqb c' c
                                       then Ok (Series_of (fillna_zero (to_numeric s)))
                                       else Ok s).
Proof. apply (assign_column (fun s => Ok (Series_of (fillna_zero (to_numeric s))))). Qed.

Lemma set_int_get c df df1 :
  set_int c df = Ok df1 ->
  column_names df1 = column_names df /\
  forall c', df_get df1 c' =
             df_get df c' ≫= (fun s => if String.eqb c' c
                                       then zs ← astype_int (fillna_zero (to_numeric s)); Ok (Int64 zs)
                                       else Ok s).
Proof.
  intros Hs.
  apply (assign_column (fun s => zs ← astype_int (fillna_zero (to_numeric s)); Ok (Int64 zs))).
  unfold set_int in Hs.
  destruct (df_get df c) as [s|e]; simpl in *; [| discriminate].
  destruct (astype_int (fillna_zero (to_numeric s))); simpl in *; [exact Hs | discriminate].
Qed.

Lemma df_get_all_Ok df cols sub :
  df_get_all df cols = Ok sub ->
  map fst sub = cols /\ forall c s, In (c, s) sub -> df_get df c = Ok s.
Proof.
  unfold df_get_all. revert sub.
  induction cols as [|c cols IH]; simpl; intros sub.
  - intros [= <-]. split; [reflexivity | intros ? ? []].
  - unfold mbind, mret, result_bind, result_ret; simpl.
    destruct (df_get df c) as [s|e] eqn:Hg; simpl; [| discriminate].
    destruct (mapM _ cols) as [sub'|e] eqn:Hs; simpl; [| discriminate].
    intros [= <-]. destruct (IH sub' eq_refl) as [Hn Hi].
    split; [simpl; congruence |].
    intros c' s' [[= <- <-] | Hin]; auto.
Qed.

(** the assignments of [df[cols] = ...] *)
Lemma fold_set_get (g : Series -> Series) sub :
  forall d c,
    df_get (fold_left (fun d '(c, s) => df_set d c (g s)) sub d) c =
    match named c (rev sub) with
    | Some s => Ok (g s)
    | None => df_get d c
    end.
Proof.
  induction sub as [|[c0 s0] sub IH] using rev_ind; intros d c; [reflexivity|].
  rewrite fold_left_app, rev_unit. simpl.
  rewrite df_get_set. rewrite String.eqb_sym.
  destruct (String.eqb c0 c)%string eqn:E; rewrite String.eqb_sym in E; rewrite E; auto.
Qed.

Lemma fold_set_names (g : Series -> Series) sub :
  forall d, (forall c s, In (c, s) sub -> exists s0, df_get d c = Ok s0) ->
    column_names (fold_left (fun d '(c, s) => df_set d c (g s)) sub d) = column_names d.
Proof.
  induction sub as [|[c0 s0] sub IH]; intros d Hd; [reflexivity|].
  simpl. destruct (Hd c0 s0 (or_introl eq_refl)) as [s1 Hs1].
  rewrite IH; [eapply column_names_set, Hs1 |].
  intros c s Hin. destruct (Hd c s (or_intror Hin)) as [s2 Hs2].
  rewrite df_get_set. destruct (String.eqb c0 c); eauto.
Qed.

Lemma named_In {A} c (r : list (string * A)) v : named c r = Some v -> In (c, v) r.
Proof.
  induction r as [|[n x] r IH]; simpl; [discriminate|].
  destruct (String.eqb_spec n c) as [-> | Hne].
  - intros [= ->]. auto.
  - auto.
Qed.

Lemma named_None {A} c (r : list (string * A)) : named c r = None -> ~ In c (map fst r).
Proof.
  induction r as [|[n x] r IH]; simpl; [tauto|].
  destruct (String.eqb_spec n c) as [-> | Hne]; [discriminate|].
  intros Hn [Heq | Hin]; [congruence | exact (IH Hn Hin)].
Qed.

Lemma named_Some_In {A} c (r : list (string * A)) :
  In c (map fst r) -> exists v, named c r = Some v.
Proof.
  induction r as [|[n x] r IH]; simpl; [tauto|].
  destruct (String.eqb_spec n c) as [-> | Hne]; [eauto|].
  intros [Heq | Hin]; [congruence | auto].
Qed.

Lemma existsb_eqb_In c cols : existsb (String.eqb c) cols = true <-> In c cols.
Proof.
  rewrite existsb_exists. split.
  - intros (x & Hx & E). apply String.eqb_eq in E. congruence.
  - intros Hc. exists c. split; [exact Hc | apply String.eqb_refl].
Qed.

Lemma set_text_get cols df df1 :
  set_text cols df = Ok df1 ->
  column_names df1 = column_names df /\
  forall c, df_get df1 c =
            df_get df c ≫= (fun s => if existsb (String.eqb c) cols
                                     then Ok (astype_str (fillna_str "" s)) else Ok s).
Proof.
  unfold set_text.
  destruct (df_get_all df cols) as [sub|e] eqn:Hs; simpl; [| discriminate].
  intros [= <-]. apply df_get_all_Ok in Hs as [Hn Hi]. split.
  - apply (fold_set_names (fun s => astype_str (fillna_str "" s))). eauto.
  - intros c. rewrite (fold_set_get (fun s => astype_str (fillna_str "" s))).
    destruct (named c (rev sub)) as [s|] eqn:Ha.
    + apply named_In, in_rev in Ha. rewrite (Hi _ _ Ha).
      assert (In c cols) as Hc by (rewrite <- Hn; apply (in_map fst _ _ Ha)).
      apply existsb_eqb_In in Hc. simpl. rewrite Hc. reflexivity.
    + apply named_None in Ha. rewrite map_rev, <- in_rev, Hn in Ha.
      destruct (existsb (String.eqb c) cols) eqn:Hc.
      * apply existsb_eqb_In in Hc. contradiction.
      * destruct (df_get df c); reflexivity.
Qed.

(** the preprocessing step acts column by column *)
Lemma preprocess_columns df df' :
  preprocess df = Ok df' ->
  column_names df' = column_names df /\
  forall c, df_get df' c = df_get df c ≫= column_result c.
Proof.
  unfold preprocess. intros Hp.
  repeat match type of Hp with
         | (?m ≫= _) = Ok _ =>
             let d := fresh "d" in let E := fresh "E" in
             destruct m as [d|] eqn:E; simpl in Hp; [| discriminate]
         end.
  apply set_date_get in E as [N1 G1]. apply set_date_get in E0 as [N2 G2].
  apply set_date_default_get in E1 as [N3 G3]. apply set_date_default_get in E2 as [N4 G4].
  apply set_float_get in E3 as [N5 G5]. apply set_int_get in E4 as [N6 G6].
  apply set_float_get in E5 as [N7 G7]. apply set_float_get in E6 as [N8 G8].
  apply set_float_get in E7 as [N9 G9]. apply set_int_get in E8 as [N10 G10].
  apply set_text_get in Hp as [N11 G11].
  split; [congruence |].
  intros c. rewrite G11.
  rewrite G10, G9, G8, G7, G6, G5, G4, G3, G2, G1.
  destruct (df_get df c) as [s|e]; [| reflexivity].
  unfold column_result, date_columns, float_columns, int_columns, text_columns, existsb.
  simpl.
  repeat match goal with
         | |- context [String.eqb c ?n] =>
             destruct (String.eqb_spec c n) as [-> | ?];
             [simpl;
              repeat match goal with
                     | |- context [astype_int ?x] => destruct (astype_int x)
                     end; reflexivity |]; simpl
         end.
  reflexivity.
Qed.
End Preprocess.

(* ===================================================================== *)
(** ** Cells of the normalised columns *)
(* ===================================================================== *)

Lemma nth_error_map_Some {A B} (f : A -> B) l i y :
  nth_error (map f l) i = Some y -> exists x, nth_error l i = Some x /\ y = f x.
Proof.
  rewrite nth_error_map. destruct (nth_error l i) as [x|]; simpl; [| discriminate].
  intros [= <-]. eauto.
Qed.

Lemma cell_get df c i v :
  cell df c i = Some v -> exists s, df_get df c = Ok s /\ nth_error (values s) i = Some v.
Proof.
  unfold cell. destruct (df_get df c) as [s|e]; [eauto | discriminate].
Qed.

(** the cell of a date column after [to_datetime], [strftime] and [fillna] *)
Lemma date_series_cell s i v :
  nth_error (values s) i = Some v ->
  nth_error (values (fillna_str "1900-01-01" (dt_strftime (to_datetime s)))) i =
  Some (VStr (match v with
              | VStr t => if strptime_coerce t =? NaT then "1900-01-01"
                          else strftime_Ymd (strptime_coerce t)
              | _ => "1900-01-01"
              end)).
Proof.
  intros Hv. unfold dt_strftime, fillna_str, values at 1.
  rewrite !map_map.
  destruct s as [xs|xs|xs|xs]; simpl in Hv |- *;
    apply nth_error_map_Some in Hv as (x & Hx & ->);
    rewrite map_map, nth_error_map, Hx; simpl; try reflexivity.
  destruct x as [t|f]; simpl; [| reflexivity].
  destruct (strptime_coerce t =? NaT); reflexivity.
Qed.

Lemma NaT_eqb_false t : t <> NaT -> (t =? NaT) = false.
Proof. apply Z.eqb_neq. Qed.

Lemma valid_mdy_example : valid_mdy "3/5/2014" 2014 3 5.
Proof.
  split; [| split; reflexivity].
  exists "3", "5", "2014". repeat split.
Qed.

(** the conversion to int64 drops the fraction of the exact value *)
Lemma float_trunc_quot f :
  is_finite f = true -> float_trunc f = Z.quot (float_num f) (float_den f).
Proof.
  destruct f as [s| | |s m e]; try discriminate; intros _; simpl.
  - reflexivity.
  - assert (Z.shiftl (Z.pos m) e = Z.quot (Z.pos m * 2 ^ Z.max e 0) (2 ^ Z.max (- e) 0)) as Hq.
    { destruct (Z.le_gt_cases 0 e) as [He | He].
      - rewrite Z.shiftl_mul_pow2 by lia.
        rewrite (Z.max_l e 0), (Z.max_r (- e) 0) by lia.
        rewrite Z.pow_0_r, Z.quot_1_r. reflexivity.
      - rewrite Z.shiftl_div_pow2 by lia.
        rewrite (Z.max_r e 0), (Z.max_l (- e) 0) by lia.
        rewrite Z.pow_0_r, Z.mul_1_r.
        rewrite Z.quot_div_nonneg; [reflexivity | lia |].
        apply Z.pow_pos_nonneg; lia. }
    destruct s; [| exact Hq].
    rewrite Hq, Z.quot_opp_l; [reflexivity |].
    apply Z.pow_nonzero; lia.
Qed.

Lemma mapM_nth_error {A B} (f : A -> option B) l k i x :
  mapM f l = Some k -> nth_error l i = Some x ->
  exists y, f x = Some y /\ nth_error k i = Some y.
Proof.
  revert k i. induction l as [|x0 l IH]; simpl; intros k i.
  - intros _ Hx. destruct i; discriminate.
  - destruct (f x0) as [y0|] eqn:Hy; simpl; [| discriminate].
    destruct (mapM f l) as [k'|] eqn:Hk; simpl; [| discriminate].
    intros [= <-]. destruct i as [|i]; simpl.
    + intros [= <-]. eauto.
    + intros Hx. apply (IH k' i eq_refl Hx).
Qed.

Section NumericCells.
Context `{Platform}.

(** what a REAL column keeps of a cell of a normalised float column *)
Lemma float_series_cell s i v :
  nth_error (values s) i = Some v ->
  exists v', nth_error (values (Series_of (fillna_zero (to_numeric s)))) i = Some v' /\
    store REAL (bind_value v') =
    match parsed_number s i with
    | Some n => SReal (cast_real n)
    | None => SReal fzero
    end.
Proof.
  intros Hv. unfold parsed_number.
  destruct s as [xs|xs|xs|xs]; simpl in Hv |- *.
  - apply nth_error_map_Some in Hv as (x & Hx & ->).
    exists (VInt x). rewrite nth_error_map, Hx. auto.
  - apply nth_error_map_Some in Hv as (x & Hx & ->).
    rewrite map_map, !nth_error_map, Hx. simpl. eexists; split; [reflexivity |].
    destruct x; reflexivity.
  - apply nth_error_map_Some in Hv as (x & Hx & ->).
    exists (VBool x). rewrite nth_error_map, Hx. split; [reflexivity |].
    destruct x; reflexivity.
  - apply nth_error_map_Some in Hv as (x & Hx & ->).
    destruct (mapM obj_int xs) as [zs|] eqn:Hm; simpl.
    + destruct (mapM_nth_error _ _ _ _ _ Hm Hx) as (z & Hz & Hi).
      rewrite nth_error_map, Hi. simpl.
      eexists; split; reflexivity.
    + rewrite !map_map, !nth_error_map, Hx. simpl. eexists; split; [reflexivity |].
      destruct (obj_float x); reflexivity.
Qed.

Lemma float_to_int64_quot f :
  is_finite f = true -> float_to_int64 f = cast_integer (NumFloat f).
Proof.
  intros Hf. unfold float_to_int64, cast_integer.
  rewrite (float_trunc_quot f Hf). reflexivity.
Qed.

Lemma forallb_nth_error {A} (p : A -> bool) l i x :
  forallb p l = true -> nth_error l i = Some x -> p x = true.
Proof.
  intros Hp Hx. rewrite forallb_forall in Hp. eapply Hp, nth_error_In, Hx.
Qed.

(** the cell of a normalised integer column *)
Lemma int_series_cell s zs i v :
  astype_int (fillna_zero (to_numeric s)) = Ok zs ->
  nth_error (values s) i = Some v ->
  nth_error zs i =
  Some (match parsed_number s i with
        | Some n => cast_integer n
        | None => 0
        end).
Proof.
  intros Ha Hv. unfold parsed_number.
  assert (forall xs x, astype_int (fillna_zero (NFloat64 xs)) = Ok zs ->
            nth_error xs i = Some x ->
            nth_error zs i = Some (if is_nan x then 0 else cast_integer (NumFloat x))) as HF.
  { intros xs x Hz Hx. simpl in Hz.
    destruct (forallb is_finite _) eqn:Hfin; [| discriminate].
    injection Hz as <-. rewrite map_map, nth_error_map, Hx. simpl. f_equal.
    destruct (is_nan x) eqn:Hn; [reflexivity |].
    apply float_to_int64_quot.
    apply (forallb_nth_error _ _ i _ Hfin).
    rewrite nth_error_map, Hx. simpl. rewrite Hn. reflexivity. }
  destruct s as [xs|xs|xs|xs]; simpl in Hv, Ha |- *.
  - injection Ha as <-. apply nth_error_map_Some in Hv as (x & Hx & ->).
    rewrite Hx. reflexivity.
  - apply nth_error_map_Some in Hv as (x & Hx & ->).
    rewrite (HF xs x Ha Hx), Hx. simpl. destruct (is_nan x); reflexivity.
  - injection Ha as <-. apply nth_error_map_Some in Hv as (x & Hx & ->).
    rewrite nth_error_map, Hx. reflexivity.
  - apply nth_error_map_Some in Hv as (x & Hx & ->).
    destruct (mapM obj_int xs) as [ys|] eqn:Hm.
    + simpl in Ha. injection Ha as <-.
      destruct (mapM_nth_error _ _ _ _ _ Hm Hx) as (z & Hz & Hi).
      rewrite Hi. reflexivity.
    + assert (nth_error (map obj_float xs) i = Some (obj_float x)) as Hx'
        by (rewrite nth_error_map, Hx; reflexivity).
      rewrite (HF _ _ Ha Hx'), Hx'. simpl. destruct (is_nan (obj_float x)); reflexivity.
Qed.

Lemma existsb_nth_error {A} (p : A -> bool) l i x :
  existsb p l = false -> nth_error l i = Some x -> p x = false.
Proof.
  intros Hp Hx. destruct (p x) eqn:E; [| reflexivity].
  assert (existsb p l = true) as Ht; [| congruence].
  apply existsb_exists. exists x. split; [eapply nth_error_In, Hx | exact E].
Qed.

(** the cell of a normalised text column *)
Lemma text_series_cell s i v :
  nth_error (values s) i = Some v ->
  nth_error (values (astype_str (fillna_str "" s))) i = Some (VStr (text_form v)).
Proof.
  intros Hv. unfold astype_str, text_form. simpl values at 1.
  rewrite map_map, nth_error_map.
  destruct s as [xs|xs|xs|xs]; simpl in Hv |- *;
    apply nth_error_map_Some in Hv as (x & Hx & ->).
  - rewrite nth_error_map, Hx. reflexivity.
  - destruct (existsb is_nan xs) eqn:Hn; simpl.
    + rewrite map_map, nth_error_map, Hx. simpl. destruct (is_nan x); reflexivity.
    + rewrite nth_error_map, Hx. simpl.
      rewrite (existsb_nth_error _ _ _ _ Hn Hx). reflexivity.
  - rewrite nth_error_map, Hx. reflexivity.
  - rewrite map_map, nth_error_map, Hx. simpl.
    destruct x as [t|f]; simpl; [reflexivity |]. destruct (is_nan f); reflexivity.
Qed.

End NumericCells.

(* ===================================================================== *)
(** ** The claims on the normalised columns *)
(* ===================================================================== *)

Section DateClaim.
Context `{Platform}.

Lemma date_column_cell df df' c i v :
  preprocess df = Ok df' -> In c date_columns -> cell df c i = Some v ->
  cell df' c i =
  Some (VStr (match v with
              | VStr t => if strptime_coerce t =? NaT then "1900-01-01"
                          else strftime_Ymd (strptime_coerce t)
              | _ => "1900-01-01"
              end)).
Proof.
  intros Hp Hc Hv.
  apply preprocess_columns in Hp as [_ Hg].
  apply cell_get in Hv as (s & Hs & Hv).
  unfold cell. rewrite Hg, Hs. simpl.
  assert (column_result c s = Ok (fillna_str "1900-01-01" (dt_strftime (to_datetime s)))) as ->.
  { destruct Hc as [<- | [<- | []]]; reflexivity. }
  apply date_series_cell, Hv.
Qed.


End DateClaim.

Lemma df_get_names df c s : df_get df c = Ok s -> In c (column_names df).
Proof.
  induction df as [|[n s0] rest IH]; simpl; [discriminate|].
  destruct (String.eqb_spec n c) as [-> | Hne]; auto.
Qed.

Lemma df_get_In df c : In c (column_names df) -> exists s, df_get df c = Ok s.
Proof.
  induction df as [|[n s0] rest IH]; simpl; [tauto|].
  destruct (String.eqb_spec n c) as [-> | Hne]; [eauto|].
  intros [Heq | Hin]; [congruence | auto].
Qed.

Section NumericClaim.
Context `{Platform}.


End NumericClaim.

Section TextClaim.
Context `{Platform}.

(** C3. In each of the thirteen text columns a missing cell is stored as the
    empty string and any other cell as its string form, so that the number
    123 in order_id is stored as the text 123. *)
Theorem text_columns_normalized df df' c i v :
  preprocess df = Ok df' ->
  In c ["order_id"; "ship_mode"; "customer_name"; "segment"; "state"; "country";
        "market"; "region"; "product_id"; "category"; "sub_category";
        "product_name"; "order_priority"] ->
  cell df c i = Some v ->
  cell df' c i = Some (VStr (text_form v)) /\
  stored_cell df' c i = Some (SText (text_form v)) /\
  (is_missing v = true -> text_form v = "") /\
  (is_missing v = false -> text_form v = py_str v) /\
  (v = VInt 123 -> stored_cell df' c i = Some (SText "123")).
Proof.
  intros Hp Hc Hv.
  apply preprocess_columns in Hp as [_ Hg].
  apply cell_get in Hv as (s & Hs & Hv).
  assert (named c schema = Some TEXT /\
          column_result c s = Ok (astype_str (fillna_str "" s))) as [Ha Hr].
  { repeat (destruct Hc as [<- | Hc]; [split; reflexivity |]). destruct Hc. }
  assert (cell df' c i = Some (VStr (text_form v))) as Hcell.
  { unfold cell. rewrite Hg, Hs. simpl. rewrite Hr. apply text_series_cell, Hv. }
  assert (stored_cell df' c i = Some (SText (text_form v))) as Hst.
  { unfold stored_cell. rewrite Ha, Hcell. reflexivity. }
  repeat split; auto.
  - unfold text_form. intros ->. reflexivity.
  - unfold text_form. intros ->. reflexivity.
  - intros ->. exact Hst.
Qed.

End TextClaim.

(* ===================================================================== *)
(** ** A call of the converter *)
(* ===================================================================== *)

Section OutcomeFacts.
Context `{Platform}.

Lemma is_Exception_true e : is_Exception e = true.
Proof. destruct e; reflexivity. Qed.

Lemma remove_first_head c l : remove_first c (c :: l) = l.
Proof. simpl. rewrite String.eqb_refl. reflexivity. Qed.

Lemma handler_run csv_file e w :
  (if is_FileNotFoundError e then print (NotFound csv_file) w
   else if is_Exception e then print (ErrorOccurred e) w else (Raise e, w)) =
  (Ok tt, World (files w) (dbs w) (connections w) (handler_line csv_file e :: stdout w)).
Proof.
  unfold handler_line. rewrite is_Exception_true.
  destruct (is_FileNotFoundError e); reflexivity.
Qed.

Lemma to_sql_run df' table_name conn w ts t0 :
  dbs w !! conn = Some (DbTables ts) -> ts !! table_name = Some t0 ->
  to_sql df' table_name conn w =
  match find (fun c => negb (has_column t0 c)) (column_names df') with
  | Some c => (Raise (OperationalError (NoSuchColumn c)), w)
  | None =>
      (Ok tt, set_tables conn (<[table_name := append_rows t0 (frame_rows df')]> ts) w)
  end.
Proof.
  intros Hdb Ht. unfold to_sql, tables_of. rewrite Hdb, Ht. reflexivity.
Qed.

Lemma select_count_run table_name conn w ts t1 :
  dbs w !! conn = Some (DbTables ts) -> ts !! table_name = Some t1 ->
  select_count conn table_name w = (Ok (length (tbl_rows t1)), w).
Proof.
  intros Hdb Ht. unfold select_count, tables_of. rewrite Hdb, Ht. reflexivity.
Qed.

(** a call returns, leaving the world [outcome] computes *)
Lemma csv_to_sqlite_run csv_file db_file table_name w :
  csv_to_sqlite csv_file db_file table_name w =
  (Ok tt, outcome csv_file db_file table_name w).
Proof.
  unfold csv_to_sqlite, outcome, convert.
  unfold mbind, M_bind, read_csv, lift, print at 1 2. simpl.
  destruct (files w !! csv_file) as [[df|e]|]; simpl;
    [| apply handler_run | reflexivity].
  destruct (preprocess df) as [df'|e]; simpl; [| apply handler_run].
  unfold connect, print, set_connections, set_dbs. simpl.
  assert (forall fs ds cs ms ts t0,
            ds !! db_file = Some (DbTables ts) -> ts !! table_name = Some t0 ->
            to_sql df' table_name db_file (World fs ds cs ms) =
            match find (fun c => negb (has_column t0 c)) (column_names df') with
            | Some c => (Raise (OperationalError (NoSuchColumn c)), World fs ds cs ms)
            | None =>
                (Ok tt,
                 World fs (<[db_file := DbTables (<[table_name := append_rows t0 (frame_rows df')]> ts)]> ds)
                   cs ms)
            end) as Hsql.
  { intros fs ds cs ms ts t0 Hd Ht.
    rewrite (to_sql_run _ _ _ _ ts t0) by assumption. reflexivity. }
  assert (forall fs ds cs ms ts t1,
            ds !! db_file = Some (DbTables ts) -> ts !! table_name = Some t1 ->
            select_count db_file table_name (World fs ds cs ms) =
            (Ok (length (tbl_rows t1)), World fs ds cs ms)) as Hcount.
  { intros fs ds cs ms ts t1 Hd Ht. apply (select_count_run _ _ _ ts t1); assumption. }
  destruct (dbs w !! db_file) as [[ts| |]|] eqn:Hdb; simpl; try reflexivity.
  - unfold execute_create, tables_of, outcome_after_connect. simpl. rewrite Hdb.
    destruct (sqlite_table_name_ok table_name); simpl.
    + destruct (ts !! table_name) as [t0|] eqn:Ht; simpl.
      * rewrite (Hsql _ _ _ _ ts t0) by assumption.
        destruct (find _ (column_names df')); simpl.
        { rewrite (insert_id ts), (insert_id (dbs w)) by assumption. reflexivity. }
        erewrite Hcount; [| apply lookup_insert_eq | apply lookup_insert_eq].
        simpl. rewrite String.eqb_refl. reflexivity.
      * unfold set_tables, set_dbs. simpl.
        erewrite Hsql; [| apply lookup_insert_eq | apply lookup_insert_eq].
        destruct (find _ (column_names df')); simpl; [reflexivity |].
        erewrite Hcount; [| apply lookup_insert_eq | apply lookup_insert_eq].
        simpl. rewrite String.eqb_refl, !insert_insert_eq. reflexivity.
    + rewrite insert_id by exact Hdb. reflexivity.
  - unfold execute_create, tables_of. simpl. rewrite Hdb. reflexivity.
  - unfold execute_create, tables_of, outcome_after_connect. simpl.
    rewrite lookup_insert_eq.
    destruct (sqlite_table_name_ok table_name); simpl; [| reflexivity].
    rewrite lookup_empty. simpl.
    unfold set_tables, set_dbs. simpl.
    erewrite Hsql; [| apply lookup_insert_eq | apply lookup_insert_eq].
    destruct (find _ (column_names df')); simpl.
    + rewrite !insert_insert_eq. reflexivity.
    + erewrite Hcount; [| apply lookup_insert_eq | apply lookup_insert_eq].
      simpl. rewrite String.eqb_refl, !insert_insert_eq. reflexivity.
Qed.

End OutcomeFacts.

Lemma mapM_option_length {A B} (f : A -> option B) l k :
  mapM f l = Some k -> length k = length l.
Proof.
  revert k. induction l as [|x l IH]; simpl; intros k.
  - intros [= <-]. reflexivity.
  - destruct (f x); simpl; [| discriminate].
    destruct (mapM f l) as [k'|]; simpl; [| discriminate].
    intros [= <-]. simpl. f_equal. apply IH. reflexivity.
Qed.

Lemma values_length_date s :
  length (values (fillna_str "1900-01-01" (dt_strftime (to_datetime s)))) = length (values s).
Proof.
  destruct s; simpl; rewrite ?length_map; reflexivity.
Qed.

Lemma values_fillna_str_length v s : length (values (fillna_str v s)) = length (values s).
Proof.
  destruct s as [xs|xs|xs|xs]; simpl; rewrite ?length_map; try reflexivity.
  destruct (existsb is_nan xs); simpl; rewrite ?length_map; reflexivity.
Qed.

Section Lengths.
Context `{Platform}.

Lemma to_numeric_length s :
  length (values (Series_of (to_numeric s))) = length (values s).
Proof.
  destruct s as [xs|xs|xs|xs]; simpl; try reflexivity.
  destruct (mapM obj_int xs) as [zs|] eqn:Hm; simpl; rewrite !length_map.
  - apply mapM_option_length in Hm. exact Hm.
  - reflexivity.
Qed.

Lemma fillna_zero_length n :
  length (values (Series_of (fillna_zero n))) = length (values (Series_of n)).
Proof. destruct n; simpl; rewrite ?length_map; reflexivity. Qed.

Lemma astype_int_length n zs :
  astype_int n = Ok zs -> length zs = length (values (Series_of n)).
Proof.
  destruct n as [xs|xs|xs]; simpl.
  - intros [= <-]. rewrite length_map. reflexivity.
  - destruct (forallb is_finite xs); [| discriminate].
    intros [= <-]. rewrite !length_map. reflexivity.
  - intros [= <-]. rewrite !length_map. reflexivity.
Qed.

Lemma column_result_length c s s' :
  column_result c s = Ok s' -> length (values s') = length (values s).
Proof.
  unfold column_result.
  destruct (existsb (String.eqb c) date_columns).
  { intros [= <-]. apply values_length_date. }
  destruct (existsb (String.eqb c) float_columns).
  { intros [= <-]. rewrite fillna_zero_length. apply to_numeric_length. }
  destruct (existsb (String.eqb c) int_columns).
  { destruct (astype_int (fillna_zero (to_numeric s))) as [zs|] eqn:Hz; simpl; [| discriminate].
    intros [= <-]. simpl. rewrite length_map, (astype_int_length _ _ Hz).
    rewrite fillna_zero_length. apply to_numeric_length. }
  destruct (existsb (String.eqb c) text_columns).
  { intros [= <-]. unfold astype_str. simpl. rewrite !length_map.
    apply values_fillna_str_length. }
  intros [= <-]. reflexivity.
Qed.

(** the preprocessing step keeps the number of rows *)
Lemma preprocess_len df df' : preprocess df = Ok df' -> len df' = len df.
Proof.
  intros Hp. apply preprocess_columns in Hp as [Hn Hg].
  destruct df as [|[n s] rest], df' as [|[n' s'] rest']; try discriminate; [reflexivity |].
  simpl in Hn. injection Hn as -> _.
  specialize (Hg n). simpl in Hg. rewrite String.eqb_refl in Hg. simpl in Hg.
  simpl. symmetry in Hg. apply column_result_length in Hg. exact Hg.
Qed.

End Lengths.

Lemma frame_rows_length df : length (frame_rows df) = len df.
Proof. unfold frame_rows. rewrite length_map, length_seq. reflexivity. Qed.

(* ===================================================================== *)
(** ** The claims on a call *)
(* ===================================================================== *)

Lemma lookup_table_insert fs ds cs ms db_file table_name ts t1 :
  lookup_table (World fs (<[db_file := DbTables (<[table_name := t1]> ts)]> ds) cs ms)
    db_file table_name = Some t1.
Proof.
  unfold lookup_table. simpl. rewrite lookup_insert_eq. apply lookup_insert_eq.
Qed.

Lemma lookup_table_before w db_file table_name :
  lookup_table w db_file table_name = tables_before w db_file !! table_name.
Proof.
  unfold lookup_table, tables_before.
  destruct (dbs w !! db_file) as [[ts| |]|]; try reflexivity; symmetry; apply lookup_empty.
Qed.

Section RunClaims.
Context `{Platform}.

(** what a successful call did *)
Lemma succeeded_inv csv_file db_file table_name w :
  succeeded (outcome csv_file db_file table_name w) db_file ->
  exists df df',
    files w !! csv_file = Some (CsvFrame df) /\
    preprocess df = Ok df' /\
    sqlite_table_name_ok table_name = true /\
    let ts := tables_before w db_file in
    let t0 := default (Table schema []) (ts !! table_name) in
    let t1 := append_rows t0 (frame_rows df') in
    find (fun c => negb (has_column t0 c)) (column_names df') = None /\
    outcome csv_file db_file table_name w =
    World (files w) (<[db_file := DbTables (<[table_name := t1]> ts)]> (dbs w))
      (connections w)
      (Created db_file :: Inserted (length (tbl_rows t1)) table_name :: Verifying
         :: Writing table_name :: Creating table_name :: Connecting db_file
         :: Loaded (len df) (column_names df) :: Reading csv_file :: stdout w).
Proof.
  unfold succeeded, outcome, tables_before, handler_line.
  destruct (files w !! csv_file) as [[df|e]|]; simpl;
    [| destruct (is_FileNotFoundError e); discriminate | discriminate].
  destruct (preprocess df) as [df'|e] eqn:Hp; simpl;
    [| destruct (is_FileNotFoundError e); discriminate].
  assert (forall ts ms,
    head (stdout (outcome_after_connect csv_file db_file table_name df' ts ms w)) =
      Some (Created db_file) ->
    sqlite_table_name_ok table_name = true /\
    find (fun c => negb (has_column (default (Table schema []) (ts !! table_name)) c))
      (column_names df') = None /\
    outcome_after_connect csv_file db_file table_name df' ts ms w =
    World (files w)
      (<[db_file := DbTables
           (<[table_name := append_rows (default (Table schema []) (ts !! table_name))
                              (frame_rows df')]> ts)]> (dbs w))
      (connections w)
      (Created db_file
         :: Inserted (length (tbl_rows (append_rows (default (Table schema []) (ts !! table_name))
                                          (frame_rows df')))) table_name
         :: Verifying :: Writing table_name :: Creating table_name :: ms ++ stdout w)) as Hafter.
  { intros ts ms. unfold outcome_after_connect.
    destruct (sqlite_table_name_ok table_name); simpl; [| discriminate].
    destruct (find _ (column_names df')); simpl; [discriminate |]. auto. }
  destruct (dbs w !! db_file) as [[ts| |]|]; simpl; try discriminate;
    intros Hs; apply Hafter in Hs as (Hok & Hfind & Hout);
    exists df, df';
    (split; [reflexivity |]); (split; [exact Hp |]); (split; [exact Hok |]);
    (split; [exact Hfind | exact Hout]).
Qed.

(** C4. When the source path does not exist, the call reports the missing
    file and returns without touching the destination: no connection is
    opened, no table created, and the database files are as they were. *)
Theorem missing_source_aborts csv_file db_file table_name w :
  files w !! csv_file = None ->
  csv_to_sqlite csv_file db_file table_name w =
  (Ok tt,
   World (files w) (dbs w) (connections w)
     (NotFound csv_file :: Reading csv_file :: stdout w)).
Proof.
  intros Hf. rewrite csv_to_sqlite_run. unfold outcome. rewrite Hf. reflexivity.
Qed.

Lemma table_rows_default w db_file table_name :
  table_rows w db_file table_name =
  tbl_rows (default (Table schema []) (tables_before w db_file !! table_name)).
Proof.
  unfold table_rows. rewrite lookup_table_before.
  destruct (tables_before w db_file !! table_name); reflexivity.
Qed.

Lemma columns_default w db_file table_name :
  columns_after_create w db_file table_name =
  tbl_columns (default (Table schema []) (tables_before w db_file !! table_name)).
Proof.
  unfold columns_after_create. rewrite lookup_table_before.
  destruct (tables_before w db_file !! table_name); reflexivity.
Qed.

(** the table a successful call leaves *)
Lemma succeeded_table csv_file db_file table_name w w' r :
  csv_to_sqlite csv_file db_file table_name w = (r, w') -> succeeded w' db_file ->
  exists df df',
    files w !! csv_file = Some (CsvFrame df) /\
    preprocess df = Ok df' /\
    lookup_table w' db_file table_name =
      Some (Table (columns_after_create w db_file table_name)
              (table_rows w db_file table_name ++
               map (store_row (columns_after_create w db_file table_name)) (frame_rows df'))) /\
    reported_count w' =
      Some (length (table_rows w db_file table_name ++
                    map (store_row (columns_after_create w db_file table_name)) (frame_rows df'))) /\
    files w' = files w /\ connections w' = connections w.
Proof.
  rewrite csv_to_sqlite_run. intros [= _ <-] Hs.
  apply succeeded_inv in Hs as (df & df' & Hf & Hp & _ & _ & Hout).
  exists df, df'. rewrite Hout, table_rows_default, columns_default.
  rewrite lookup_table_insert. repeat split; auto.
Qed.



End RunClaims.

Section RerunClaims.
Context `{Platform}.

(** what a call does when nothing fails *)
Lemma outcome_success csv_file db_file table_name w df df' ts :
  files w !! csv_file = Some (CsvFrame df) -> preprocess df = Ok df' ->
  dbs w !! db_file = Some (DbTables ts) ->
  sqlite_table_name_ok table_name = true ->
  find (fun c => negb (has_column (default (Table schema []) (ts !! table_name)) c))
    (column_names df') = None ->
  outcome csv_file db_file table_name w =
  World (files w)
    (<[db_file := DbTables
         (<[table_name := append_rows (default (Table schema []) (ts !! table_name))
                            (frame_rows df')]> ts)]> (dbs w))
    (connections w)
    (Created db_file
       :: Inserted (length (tbl_rows (append_rows (default (Table schema []) (ts !! table_name))
                                        (frame_rows df')))) table_name
       :: Verifying :: Writing table_name :: Creating table_name :: Connecting db_file
       :: Loaded (len df) (column_names df) :: Reading csv_file :: stdout w).
Proof.
  intros Hf Hp Hdb Hok Hfind.
  unfold outcome. rewrite Hf, Hp, Hdb. unfold outcome_after_connect.
  rewrite Hok. cbv zeta. rewrite Hfind. reflexivity.
Qed.


(** C9. A call returns whatever its arguments and the world are: the missing
    source is taken by the FileNotFound handler, any other exception of the
    body by the catch-all handler, which prints it, and nothing propagates
    to the caller. *)
Theorem never_propagates csv_file db_file table_name w :
  exists w',
    csv_to_sqlite csv_file db_file table_name w = (Ok tt, w') /\
    match convert csv_file db_file table_name w with
    | (Ok _, w1) => w' = w1
    | (Raise e, w1) =>
        w' = World (files w1) (dbs w1) (connections w1)
               ((if is_FileNotFoundError e then NotFound csv_file else ErrorOccurred e)
                  :: stdout w1)
    end /\
    (files w !! csv_file = None -> head (stdout w') = Some (NotFound csv_file)).
Proof.
  exists (outcome csv_file db_file table_name w).
  split; [apply csv_to_sqlite_run | split].
  - pose proof (csv_to_sqlite_run csv_file db_file table_name w) as Hrun.
    unfold csv_to_sqlite in Hrun.
    destruct (convert csv_file db_file table_name w) as [[[]|e] w1].
    + injection Hrun as <-. reflexivity.
    + rewrite is_Exception_true in Hrun.
      destruct (is_FileNotFoundError e); injection Hrun as <-; reflexivity.
  - intros Hf. unfold outcome. rewrite Hf. reflexivity.
Qed.

End RerunClaims.

Lemma named_absent {A} c (r : list (string * A)) : ~ In c (map fst r) -> named c r = None.
Proof.
  intros Hn. destruct (named c r) as [v|] eqn:E; [| reflexivity].
  apply named_In in E. destruct Hn. apply (in_map fst _ _ E).
Qed.

Lemma find_first {A} (f : A -> bool) l x :
  In x l -> f x = true -> exists y, find f l = Some y /\ In y l /\ f y = true.
Proof.
  intros Hx Hf. destruct (find f l) as [y|] eqn:E.
  - exists y. apply find_some in E. tauto.
  - rewrite (find_none _ _ E x Hx) in Hf. discriminate.
Qed.

Section FailureClaims.
Context `{Platform}.

(** C8, as amended.  The connection is closed on the path that reaches step
    7: a call that succeeds leaves the open connections as they were, and so
    does a call that fails before it has connected.  A call that fails after
    it has connected returns through the handler with its connection open. *)
Theorem connection_closed_on_success csv_file db_file table_name w :
  let w' := snd (csv_to_sqlite csv_file db_file table_name w) in
  exists ms,
    stdout w' = (ms ++ stdout w)%list /\
    (In (Created db_file) ms -> connections w' = connections w) /\
    (~ In (Creating table_name) ms -> connections w' = connections w) /\
    (In (Creating table_name) ms -> ~ In (Created db_file) ms ->
     connections w' = db_file :: connections w).
Proof.
  rewrite csv_to_sqlite_run. cbv zeta. simpl snd. unfold outcome, handler_line.
  assert (forall df' ts ms0,
    ~ In (Creating table_name) ms0 -> ~ In (Created db_file) ms0 ->
    let w' := outcome_after_connect csv_file db_file table_name df' ts ms0 w in
    exists ms,
      stdout w' = (ms ++ stdout w)%list /\
      (In (Created db_file) ms -> connections w' = connections w) /\
      (~ In (Creating table_name) ms -> connections w' = connections w) /\
      (In (Creating table_name) ms -> ~ In (Created db_file) ms ->
       connections w' = db_file :: connections w)) as Hafter.
  { intros df' ts ms0 H1 H2. unfold outcome_after_connect.
    destruct (sqlite_table_name_ok table_name); simpl;
      [destruct (find _ (column_names df')) as [c|]; simpl |].
    - exists (ErrorOccurred (OperationalError (NoSuchColumn c)) :: Writing table_name
                :: Creating table_name :: ms0).
      split; [reflexivity |]. simpl. intuition (try discriminate; try congruence).
    - eexists (Created db_file :: Inserted _ table_name :: Verifying :: Writing table_name
                 :: Creating table_name :: ms0).
      split; [reflexivity |]. simpl. intuition (try discriminate; try congruence).
    - exists (ErrorOccurred (OperationalError SyntaxError) :: Creating table_name :: ms0).
      split; [reflexivity |]. simpl. intuition (try discriminate; try congruence). }
  destruct (files w !! csv_file) as [[df|e]|]; simpl.
  - destruct (preprocess df) as [df'|e]; simpl.
    + destruct (dbs w !! db_file) as [[ts| |]|]; simpl.
      * apply Hafter; simpl; intuition discriminate.
      * exists [ErrorOccurred DatabaseError; Creating table_name; Connecting db_file;
                Loaded (len df) (column_names df); Reading csv_file].
        split; [reflexivity |]. simpl. intuition (try discriminate; try congruence).
      * exists [ErrorOccurred (OperationalError UnableToOpen); Connecting db_file;
                Loaded (len df) (column_names df); Reading csv_file].
        split; [reflexivity |]. simpl. intuition (try discriminate; try congruence).
      * apply Hafter; simpl; intuition discriminate.
    + exists [if is_FileNotFoundError e then NotFound csv_file else ErrorOccurred e;
              Loaded (len df) (column_names df); Reading csv_file].
      split; [reflexivity |]. simpl.
      destruct (is_FileNotFoundError e); intuition (try discriminate; try congruence).
  - exists [if is_FileNotFoundError e then NotFound csv_file else ErrorOccurred e;
            Reading csv_file].
    split; [reflexivity |]. simpl.
    destruct (is_FileNotFoundError e); intuition (try discriminate; try congruence).
  - exists [NotFound csv_file; Reading csv_file].
    split; [reflexivity |]. simpl. intuition (try discriminate; try congruence).
Qed.


End FailureClaims.

(* ===================================================================== *)
(** ** The claims on the examples *)
(* ===================================================================== *)




(** C3 on the example: the order id 123 and a missing ship mode. *)
Lemma text_columns_normalized_witness :
  stored_cell (H := sample_platform) example_normalized "order_id" 0 = Some (SText "123") /\
  stored_cell (H := sample_platform) example_normalized "ship_mode" 1 = Some (SText "").
Proof.
  split.
  - destruct (text_columns_normalized (H := sample_platform)
                example_frame example_normalized "order_id" 0%nat (VInt 123)
                eq_refl (or_introl eq_refl) eq_refl) as (_ & _ & _ & _ & H5).
    exact (H5 eq_refl).
  - destruct (text_columns_normalized (H := sample_platform)
                example_frame example_normalized "ship_mode" 1%nat (VFloat nan)
                eq_refl (or_intror (or_introl eq_refl)) eq_refl) as (_ & H2 & _).
    exact H2.
Defined.

(** C4 on the example: a source path that does not exist. *)
Lemma missing_source_aborts_witness :
  csv_to_sqlite (H := sample_platform) "absent.csv" "orders.db" "orders" example_world =
  (Ok tt, World (files example_world) ∅ [] [NotFound "absent.csv"; Reading "absent.csv"]).
Proof.
  apply (missing_source_aborts (H := sample_platform) "absent.csv" "orders.db" "orders"
           example_world).
  vm_compute. reflexivity.
Defined.




(** C8 as stated fails on the source with one column more: the call
    connects, fails in the append, and returns with the connection open. *)
Lemma connection_left_open :
  let run := csv_to_sqlite (H := sample_platform) "extra.csv" "orders.db" "orders"
               example_world in
  fst run = Ok tt /\
  In (Creating "orders") (stdout (snd run)) /\
  connections example_world = [] /\
  connections (snd run) = ["orders.db"].
Proof. vm_compute. repeat split. right. right. left. reflexivity. Qed.

(** C8, as amended, on the example: the successful conversion. *)
Lemma connection_closed_on_success_witness :
  connections converted_once = connections example_world.
Proof.
  destruct (connection_closed_on_success (H := sample_platform)
              "orders.csv" "orders.db" "orders" example_world) as (ms & Hms & Hc & _).
  fold converted_once in Hms, Hc. apply Hc.
  assert (ms = firstn 8 (stdout converted_once)) as ->.
  { apply (app_inv_tail (stdout example_world)). rewrite <- Hms.
    vm_compute. reflexivity. }
  vm_compute. left. reflexivity.
Defined.

(** C9 on the example: the failing conversion returns. *)
Lemma never_propagates_witness :
  fst (csv_to_sqlite (H := sample_platform) "extra.csv" "orders.db" "orders" example_world) =
  Ok tt.
Proof.
  destruct (never_propagates (H := sample_platform) "extra.csv" "orders.db" "orders"
              example_world) as (w' & -> & _).
  reflexivity.
Defined.


(* ===================================================================== *)
(** ** What a call leaves of the destination *)
(* ===================================================================== *)

Section Destination.
Context `{Platform}.

(** the database files a call leaves: as they were, or with the destination
    holding its former tables, or with the destination table put among them *)
Lemma outcome_dbs csv_file db_file table_name w :
  let w' := outcome csv_file db_file table_name w in
  let ts := tables_before w db_file in
  files w' = files w /\
  (dbs w' = dbs w \/
   ((dbs w !! db_file = None \/ dbs w !! db_file = Some (DbTables ts)) /\
    (dbs w' = <[db_file := DbTables ts]> (dbs w) \/
     exists new,
       dbs w' = <[db_file := DbTables
                    (<[table_name := Table (columns_after_create w db_file table_name)
                                       (table_rows w db_file table_name ++ new)]> ts)]> (dbs w) /\
       (new = [] \/ succeeded w' db_file)))).
Proof.
  cbv zeta. rewrite table_rows_default, columns_default.
  unfold outcome, tables_before.
  destruct (files w !! csv_file) as [[df|e]|]; simpl; auto.
  destruct (preprocess df) as [df'|e]; simpl; auto.
  assert (forall ts ms,
    let w' := outcome_after_connect csv_file db_file table_name df' ts ms w in
    files w' = files w /\
    (dbs w' = <[db_file := DbTables ts]> (dbs w) \/
     exists new,
       dbs w' = <[db_file := DbTables
                    (<[table_name := Table (tbl_columns (default (Table schema []) (ts !! table_name)))
                                       (tbl_rows (default (Table schema []) (ts !! table_name)) ++ new)]>
                       ts)]> (dbs w) /\
       (new = [] \/ succeeded w' db_file))) as Hafter.
  { intros ts ms. unfold outcome_after_connect.
    destruct (sqlite_table_name_ok table_name); simpl; [| auto].
    destruct (find _ (column_names df')); simpl; (split; [reflexivity | right]).
    - exists []. rewrite app_nil_r. split; [| left; reflexivity].
      destruct (default _ (ts !! table_name)); reflexivity.
    - eexists. split; [reflexivity | right; reflexivity]. }
  destruct (dbs w !! db_file) as [[ts| |]|] eqn:Hdb; simpl; auto.
  - destruct (Hafter ts [Connecting db_file; Loaded (len df) (column_names df); Reading csv_file])
      as [Hf Hd]. split; [exact Hf | right]. split; [right; reflexivity | exact Hd].
  - destruct (Hafter ∅ [Connecting db_file; Loaded (len df) (column_names df); Reading csv_file])
      as [Hf Hd]. split; [exact Hf | right]. split; [left; reflexivity | exact Hd].
Qed.

End Destination.

Section DestinationClaims.
Context `{Platform}.

Lemma lookup_table_dbs w w' db_file table_name :
  dbs w' = dbs w -> lookup_table w' db_file table_name = lookup_table w db_file table_name.
Proof. unfold lookup_table. intros ->. reflexivity. Qed.

Lemma lookup_table_set fs ds cs ms db_file table_name ts :
  lookup_table (World fs (<[db_file := DbTables ts]> ds) cs ms) db_file table_name =
  ts !! table_name.
Proof. unfold lookup_table. simpl. rewrite lookup_insert_eq. reflexivity. Qed.



End DestinationClaims.

Lemma has_column_In tb c : has_column tb c = true <-> In c (map fst (tbl_columns tb)).
Proof.
  unfold has_column. split.
  - destruct (named c (tbl_columns tb)) as [a|] eqn:E; [| discriminate].
    intros _. apply named_In in E. apply (in_map fst _ _ E).
  - intros Hin. apply named_Some_In in Hin as [a ->]. reflexivity.
Qed.

Lemma find_missing_None tb cols :
  find (fun c => negb (has_column tb c)) cols = None <->
  (forall c, In c cols -> In c (map fst (tbl_columns tb))).
Proof.
  split.
  - intros Hf c Hc. apply has_column_In.
    apply (find_none _ _ Hf) in Hc. apply negb_false_iff in Hc. exact Hc.
  - intros Hall. destruct (find _ cols) as [c|] eqn:E; [| reflexivity].
    apply find_some in E as [Hc Hn]. apply Hall, has_column_In in Hc.
    rewrite Hc in Hn. discriminate.
Qed.

Section CallClaims.
Context `{Platform}.

(** X3. A call whose source is not a frame that normalises (the path is
    missing or unreadable, a required column is absent, an integer column
    holds a non-finite number) fails before step 3: it opens no connection
    and leaves every database file as it was. *)
Theorem failure_before_connect csv_file db_file table_name w :
  (forall df df', files w !! csv_file = Some (CsvFrame df) -> preprocess df <> Ok df') ->
  let w' := snd (csv_to_sqlite csv_file db_file table_name w) in
  files w' = files w /\ dbs w' = dbs w /\ connections w' = connections w /\
  ~ succeeded w' db_file.
Proof.
  intros Hsrc. rewrite csv_to_sqlite_run. cbv zeta. simpl snd.
  unfold outcome, succeeded, handler_line.
  destruct (files w !! csv_file) as [[df|e]|]; simpl.
  - destruct (preprocess df) as [df'|e] eqn:Hp; [destruct (Hsrc df df' eq_refl Hp) |].
    simpl. destruct (is_FileNotFoundError e); repeat split; discriminate.
  - destruct (is_FileNotFoundError e); repeat split; discriminate.
  - repeat split; discriminate.
Qed.


End CallClaims.

(* ===================================================================== *)
(** ** When the preprocessing step succeeds *)
(* ===================================================================== *)

Lemma df_get_Raise df c e :
  df_get df c = Raise e -> e = KeyError c /\ ~ In c (column_names df).
Proof.
  induction df as [|[n s] rest IH]; simpl.
  - intros [= <-]. tauto.
  - destruct (String.eqb_spec n c) as [-> | Hne]; [discriminate |].
    intros He. destruct (IH He) as [-> Hn]. split; [reflexivity |].
    intros [Heq | Hin]; [congruence | exact (Hn Hin)].
Qed.

Section Steps.
Context `{Platform}.

Lemma astype_int_fillna_Ok n :
  (exists zs, astype_int (fillna_zero n) = Ok zs) <-> no_infinity n = true.
Proof.
  destruct n as [xs|xs|xs]; simpl; try (split; eauto; fail).
  assert (forallb is_finite (map (fun f => if is_nan f then fzero else f) xs) =
          negb (existsb is_infinite xs)) as ->.
  { induction xs as [|x xs IH]; simpl; [reflexivity |].
    rewrite IH, negb_orb. destruct x; reflexivity. }
  destruct (negb (existsb is_infinite xs)); split; eauto; try discriminate.
  intros [zs Hz]; discriminate.
Qed.

Lemma astype_int_fillna_Raise n e :
  astype_int (fillna_zero n) = Raise e -> e = IntCastingNaNError /\ no_infinity n = false.
Proof.
  intros He. split.
  - destruct n as [xs|xs|xs]; simpl in He; try discriminate.
    destruct (forallb is_finite _); [discriminate | congruence].
  - destruct (no_infinity n) eqn:E; [| reflexivity].
    apply astype_int_fillna_Ok in E as [zs Hz]. congruence.
Qed.

(** how one assignment [df[c] = f(df[c])] fails *)
Lemma assign_Raise (f : Series -> result Series) c df e :
  (s ← df_get df c; s' ← f s; mret (df_set df c s')) = Raise e ->
  (e = KeyError c /\ ~ In c (column_names df)) \/
  (exists s, df_get df c = Ok s /\ f s = Raise e).
Proof.
  destruct (df_get df c) as [s|e0] eqn:Hg; simpl.
  - destruct (f s) as [s'|e1] eqn:Hf; simpl; [discriminate |].
    intros [= <-]. right. eauto.
  - intros [= <-]. left. apply df_get_Raise, Hg.
Qed.

Lemma set_date_Raise c df e :
  set_date c df = Raise e -> e = KeyError c /\ ~ In c (column_names df).
Proof.
  intros He. apply (assign_Raise (fun s => Ok (dt_strftime (to_datetime s)))) in He
    as [He | (s & _ & Hf)]; [exact He | discriminate].
Qed.

Lemma set_date_default_Raise c df e :
  set_date_default c df = Raise e -> e = KeyError c /\ ~ In c (column_names df).
Proof.
  intros He. apply (assign_Raise (fun s => Ok (fillna_str "1900-01-01" s))) in He
    as [He | (s & _ & Hf)]; [exact He | discriminate].
Qed.

Lemma set_float_Raise c df e :
  set_float c df = Raise e -> e = KeyError c /\ ~ In c (column_names df).
Proof.
  intros He. apply (assign_Raise (fun s => Ok (Series_of (fillna_zero (to_numeric s))))) in He
    as [He | (s & _ & Hf)]; [exact He | discriminate].
Qed.

Lemma set_int_Raise c df e :
  set_int c df = Raise e ->
  (e = KeyError c /\ ~ In c (column_names df)) \/
  (exists s, df_get df c = Ok s /\ e = IntCastingNaNError /\ no_infinity (to_numeric s) = false).
Proof.
  unfold set_int. destruct (df_get df c) as [s|e0] eqn:Hg; simpl.
  - destruct (astype_int (fillna_zero (to_numeric s))) as [zs|e1] eqn:Hz; simpl; [discriminate |].
    intros [= <-]. right. exists s. split; [reflexivity |].
    apply astype_int_fillna_Raise, Hz.
  - intros [= <-]. left. apply df_get_Raise, Hg.
Qed.

Lemma set_int_Ok c df df1 :
  set_int c df = Ok df1 ->
  exists s, df_get df c = Ok s /\ no_infinity (to_numeric s) = true.
Proof.
  unfold set_int. destruct (df_get df c) as [s|e0] eqn:Hg; simpl; [| discriminate].
  destruct (astype_int (fillna_zero (to_numeric s))) as [zs|e1] eqn:Hz; simpl; [| discriminate].
  intros _. exists s. split; [reflexivity |]. apply astype_int_fillna_Ok. eauto.
Qed.

Lemma df_get_all_Raise df cols e :
  df_get_all df cols = Raise e ->
  exists c, In c cols /\ e = KeyError c /\ ~ In c (column_names df).
Proof.
  unfold df_get_all. induction cols as [|c cols IH]; simpl; [discriminate |].
  unfold mbind, mret, result_bind, result_ret; simpl.
  destruct (df_get df c) as [s|e0] eqn:Hg; simpl.
  - destruct (mapM _ cols) as [sub|e1] eqn:Hs; simpl; [discriminate |].
    intros [= <-]. destruct (IH eq_refl) as (c' & Hc & He). eauto.
  - intros [= <-]. exists c. split; [left; reflexivity | apply df_get_Raise, Hg].
Qed.

Lemma df_get_all_names df cols sub :
  df_get_all df cols = Ok sub -> forall c, In c cols -> In c (column_names df).
Proof.
  intros Hs c Hc. apply df_get_all_Ok in Hs as [Hn Hi].
  rewrite <- Hn in Hc. apply in_map_iff in Hc as ([c' s] & <- & Hin).
  eapply df_get_names, Hi, Hin.
Qed.

End Steps.

Lemma result_bind_Ok {A} (m : result A) : m ≫= (fun a => Ok a) = m.
Proof. destruct m; reflexivity. Qed.

Ltac in_list := simpl; repeat (first [left; reflexivity | right]).

Section PreprocessCases.
Context `{Platform}.

(** a column that earlier assignments do not name is still the source's *)
Ltac untouched G :=
  rewrite G; simpl; rewrite ?result_bind_Ok.

(** how the preprocessing step fails *)
Lemma preprocess_Raise_inv df e :
  preprocess df = Raise e ->
  (exists c, e = KeyError c /\ In c (map fst schema) /\ ~ In c (column_names df)) \/
  (e = IntCastingNaNError /\
   exists c s, In c int_columns /\ df_get df c = Ok s /\ no_infinity (to_numeric s) = false).
Proof.
  unfold preprocess. intros Hp.
  destruct (set_date "order_date" df) as [d1|e1] eqn:E1; simpl in Hp;
    [| injection Hp as <-; apply set_date_Raise in E1 as [-> Hn]; left; eexists;
       split; [reflexivity | split; [in_list | exact Hn]]].
  apply set_date_get in E1 as [N1 G1].
  destruct (set_date "ship_date" d1) as [d2|e2] eqn:E2; simpl in Hp;
    [| injection Hp as <-; apply set_date_Raise in E2 as [-> Hn]; left; eexists;
       split; [reflexivity | split; [in_list | congruence]]].
  apply set_date_get in E2 as [N2 G2].
  destruct (set_date_default "order_date" d2) as [d3|e3] eqn:E3; simpl in Hp;
    [| injection Hp as <-; apply set_date_default_Raise in E3 as [-> Hn]; left; eexists;
       split; [reflexivity | split; [in_list | congruence]]].
  apply set_date_default_get in E3 as [N3 G3].
  destruct (set_date_default "ship_date" d3) as [d4|e4] eqn:E4; simpl in Hp;
    [| injection Hp as <-; apply set_date_default_Raise in E4 as [-> Hn]; left; eexists;
       split; [reflexivity | split; [in_list | congruence]]].
  apply set_date_default_get in E4 as [N4 G4].
  destruct (set_float "sales" d4) as [d5|e5] eqn:E5; simpl in Hp;
    [| injection Hp as <-; apply set_float_Raise in E5 as [-> Hn]; left; eexists;
       split; [reflexivity | split; [in_list | congruence]]].
  apply set_float_get in E5 as [N5 G5].
  destruct (set_int "quantity" d5) as [d6|e6] eqn:E6; simpl in Hp.
  2:{ injection Hp as <-. apply set_int_Raise in E6 as [[-> Hn] | (s & Hs & -> & Hi)].
      - left; eexists; split; [reflexivity | split; [in_list | congruence]].
      - right. split; [reflexivity |]. exists "quantity", s.
        split; [in_list | split; [| exact Hi]].
        revert Hs. untouched G5. untouched G4. untouched G3. untouched G2. untouched G1.
        auto. }
  apply set_int_get in E6 as [N6 G6].
  destruct (set_float "discount" d6) as [d7|e7] eqn:E7; simpl in Hp;
    [| injection Hp as <-; apply set_float_Raise in E7 as [-> Hn]; left; eexists;
       split; [reflexivity | split; [in_list | congruence]]].
  apply set_float_get in E7 as [N7 G7].
  destruct (set_float "profit" d7) as [d8|e8] eqn:E8; simpl in Hp;
    [| injection Hp as <-; apply set_float_Raise in E8 as [-> Hn]; left; eexists;
       split; [reflexivity | split; [in_list | congruence]]].
  apply set_float_get in E8 as [N8 G8].
  destruct (set_float "shipping_cost" d8) as [d9|e9] eqn:E9; simpl in Hp;
    [| injection Hp as <-; apply set_float_Raise in E9 as [-> Hn]; left; eexists;
       split; [reflexivity | split; [in_list | congruence]]].
  apply set_float_get in E9 as [N9 G9].
  destruct (set_int "year" d9) as [d10|e10] eqn:E10; simpl in Hp.
  2:{ injection Hp as <-. apply set_int_Raise in E10 as [[-> Hn] | (s & Hs & -> & Hi)].
      - left; eexists; split; [reflexivity | split; [in_list | congruence]].
      - right. split; [reflexivity |]. exists "year", s.
        split; [in_list | split; [| exact Hi]].
        revert Hs. untouched G9. untouched G8. untouched G7. untouched G6. untouched G5.
        untouched G4. untouched G3. untouched G2. untouched G1. auto. }
  apply set_int_get in E10 as [N10 G10].
  unfold set_text in Hp.
  destruct (df_get_all d10 text_columns) as [sub|e11] eqn:E11; simpl in Hp; [discriminate |].
  injection Hp as <-. apply df_get_all_Raise in E11 as (c & Hc & -> & Hn).
  left. exists c. split; [reflexivity | split; [| congruence]].
  simpl in Hc. repeat (destruct Hc as [<- | Hc]; [in_list |]). destruct Hc.
Qed.

Lemma set_date_In c df df1 : set_date c df = Ok df1 -> In c (column_names df).
Proof.
  unfold set_date. destruct (df_get df c) as [s|] eqn:Hg; [| discriminate].
  intros _. eapply df_get_names, Hg.
Qed.

Lemma set_float_In c df df1 : set_float c df = Ok df1 -> In c (column_names df).
Proof.
  unfold set_float. destruct (df_get df c) as [s|] eqn:Hg; [| discriminate].
  intros _. eapply df_get_names, Hg.
Qed.

(** what the preprocessing step needs of a frame it normalises *)
Lemma preprocess_Ok_inv df df' :
  preprocess df = Ok df' ->
  incl (map fst schema) (column_names df) /\
  forall c s, In c int_columns -> df_get df c = Ok s -> no_infinity (to_numeric s) = true.
Proof.
  unfold preprocess. intros Hp.
  repeat match type of Hp with
         | (?m ≫= _) = Ok _ =>
             let d := fresh "d" in let E := fresh "E" in
             destruct m as [d|] eqn:E; simpl in Hp; [| discriminate]
         end.
  pose proof E4 as I1. pose proof E8 as I2.
  pose proof (set_date_In _ _ _ E) as M1. pose proof (set_date_In _ _ _ E0) as M2.
  pose proof (set_float_In _ _ _ E3) as M3. pose proof (set_float_In _ _ _ E5) as M4.
  pose proof (set_float_In _ _ _ E6) as M5. pose proof (set_float_In _ _ _ E7) as M6.
  apply set_int_Ok in I1 as (s1 & Hs1 & Hi1). apply set_int_Ok in I2 as (s2 & Hs2 & Hi2).
  apply set_date_get in E as [N1 G1]. apply set_date_get in E0 as [N2 G2].
  apply set_date_default_get in E1 as [N3 G3]. apply set_date_default_get in E2 as [N4 G4].
  apply set_float_get in E3 as [N5 G5]. apply set_int_get in E4 as [N6 G6].
  apply set_float_get in E5 as [N7 G7]. apply set_float_get in E6 as [N8 G8].
  apply set_float_get in E7 as [N9 G9]. apply set_int_get in E8 as [N10 G10].
  unfold set_text in Hp.
  destruct (df_get_all d8 text_columns) as [sub|] eqn:E11; simpl in Hp; [| discriminate].
  pose proof (df_get_all_names _ _ _ E11) as Ht.
  assert (forall c, df_get df c = Raise (KeyError c) -> ~ In c (column_names df)) as Hmiss.
  { intros c Hc. apply df_get_Raise in Hc as [_ Hn]. exact Hn. }
  revert Hs1. untouched G5. untouched G4. untouched G3. untouched G2. untouched G1. intros Hs1.
  revert Hs2. untouched G9. untouched G8. untouched G7. untouched G6. untouched G5.
  untouched G4. untouched G3. untouched G2. untouched G1. intros Hs2.
  split.
  - assert (forall c, In c (column_names d8) -> In c (column_names df)) as Hn
      by (intros c; congruence).
    assert (forall c s, df_get df c = Ok s -> In c (column_names df)) as Hg
      by (intros c s; apply df_get_names).
    intros c Hc. simpl in Hc.
    repeat (destruct Hc as [<- | Hc];
            [first [solve [apply Hn, Ht; in_list] | solve [eapply Hg; eassumption]
                   | congruence] |]).
    contradiction.
  - intros c s [<- | [<- | []]] Hs; congruence.
Qed.

End PreprocessCases.

Section PreprocessClaims.
Context `{Platform}.

(** X5. The preprocessing step succeeds exactly on a frame that has the
    twenty-one columns of the schema and whose two integer columns hold no
    infinity once read as numbers; nothing else in a cell makes it fail. *)
Theorem preprocess_succeeds_iff df :
  (exists df', preprocess df = Ok df') <->
  incl (map fst schema) (column_names df) /\
  forall c s, In c int_columns -> df_get df c = Ok s -> no_infinity (to_numeric s) = true.
Proof.
  split.
  - intros [df' Hp]. apply preprocess_Ok_inv in Hp. exact Hp.
  - intros [Hcols Hint]. destruct (preprocess df) as [df'|e] eqn:Hp; [eauto |].
    apply preprocess_Raise_inv in Hp as [(c & _ & Hc & Hn) | (_ & c & s & Hc & Hs & Hi)].
    + destruct (Hn (Hcols c Hc)).
    + rewrite (Hint c s Hc Hs) in Hi. discriminate.
Qed.

(** X6. The preprocessing step fails in two ways only: with the KeyError of
    a column of the schema that the frame lacks, or with the integer cast
    error of pandas on an integer column that holds an infinity. *)
Theorem preprocess_failure_kinds df e :
  preprocess df = Raise e ->
  (exists c, e = KeyError c /\ In c (map fst schema) /\ df_get df c = Raise (KeyError c)) \/
  (e = IntCastingNaNError /\
   exists c s, In c int_columns /\ df_get df c = Ok s /\
               exists xs, to_numeric s = NFloat64 xs /\ existsb is_infinite xs = true).
Proof.
  intros Hp. apply preprocess_Raise_inv in Hp as [(c & -> & Hc & Hn) | (-> & c & s & Hc & Hs & Hi)].
  - left. exists c. split; [reflexivity | split; [exact Hc |]].
    destruct (df_get df c) as [s|e] eqn:Hg.
    + destruct (Hn (df_get_names _ _ _ Hg)).
    + apply df_get_Raise in Hg as [-> _]. reflexivity.
  - right. split; [reflexivity |]. exists c, s. split; [exact Hc | split; [exact Hs |]].
    unfold no_infinity in Hi. destruct (to_numeric s) as [xs|xs|xs]; try discriminate.
    exists xs. split; [reflexivity |]. apply negb_false_iff in Hi. exact Hi.
Qed.

End PreprocessClaims.

(* ===================================================================== *)
(** ** The stored values and their types *)
(* ===================================================================== *)

(** the columns of the schema, by the way step 2 normalises them *)
Lemma schema_columns c a :
  named c schema = Some a ->
  (In c date_columns /\ a = TEXT) \/ (In c text_columns /\ a = TEXT) \/
  (In c float_columns /\ a = REAL) \/ (In c int_columns /\ a = INTEGER).
Proof.
  unfold schema. cbn [named]. intros Hn.
  repeat match type of Hn with
         | (if String.eqb ?x c then _ else _) = _ =>
             destruct (String.eqb_spec x c) as [<- | _];
               [injection Hn as <-;
                first [left; split; [solve [in_list] | reflexivity]
                      | right; left; split; [solve [in_list] | reflexivity]
                      | right; right; left; split; [solve [in_list] | reflexivity]
                      | right; right; right; split; [solve [in_list] | reflexivity]] |]
         end.
  discriminate.
Qed.

Section StoredTypes.
Context `{Platform}.

(** X7. Every cell of a column of the schema is stored, and stored in the
    storage class its column declares: a text in the sixteen TEXT columns, a
    real in the four REAL columns, an integer in the two INTEGER columns,
    and never NULL. *)
Theorem stored_cells_typed df df' c a i v0 :
  preprocess df = Ok df' -> named c schema = Some a -> cell df c i = Some v0 ->
  exists v, stored_cell df' c i = Some v /\ of_declared_type a v = true /\ v <> SNull.
Proof.
  intros Hp Ha Hv0.
  assert (forall v, of_declared_type a v = true -> v <> SNull) as Hnull.
  { intros v Hv ->. destruct a; discriminate. }
  enough (exists v, stored_cell df' c i = Some v /\ of_declared_type a v = true)
    as (v & Hv & Ht) by (exists v; auto).
  pose proof Hp as Hcols. apply preprocess_columns in Hcols as [Hn Hg].
  pose proof Hv0 as Hs. apply cell_get in Hs as (s & Hs & Hv).
  unfold stored_cell. rewrite Ha.
  apply schema_columns in Ha as [[Hc ->] | [[Hc ->] | [[Hc ->] | [Hc ->]]]].
  - rewrite (date_column_cell _ _ _ _ _ Hp Hc Hv0). eexists. split; reflexivity.
  - assert (column_result c s = Ok (astype_str (fillna_str "" s))) as Hr.
    { simpl in Hc. repeat (destruct Hc as [<- | Hc]; [reflexivity |]). destruct Hc. }
    assert (cell df' c i = Some (VStr (text_form v0))) as ->.
    { unfold cell. rewrite Hg, Hs. simpl. rewrite Hr. apply text_series_cell, Hv. }
    eexists. split; reflexivity.
  - assert (column_result c s = Ok (Series_of (fillna_zero (to_numeric s)))) as Hr.
    { simpl in Hc. repeat (destruct Hc as [<- | Hc]; [reflexivity |]). destruct Hc. }
    destruct (float_series_cell s i _ Hv) as (v' & Hv' & Hst).
    assert (cell df' c i = Some v') as ->.
    { unfold cell. rewrite Hg, Hs. simpl. rewrite Hr. exact Hv'. }
    cbn [mbind option_bind]. rewrite Hst.
    destruct (parsed_number s i); eexists; split; reflexivity.
  - assert (column_result c s =
            (zs ← astype_int (fillna_zero (to_numeric s)); Ok (Int64 zs))) as Hr.
    { simpl in Hc. repeat (destruct Hc as [<- | Hc]; [reflexivity |]). destruct Hc. }
    assert (exists s', df_get df' c = Ok s') as [s' Hs'].
    { apply df_get_In. rewrite Hn. eapply df_get_names, Hs. }
    rewrite Hg, Hs in Hs'. simpl in Hs'. rewrite Hr in Hs'.
    destruct (astype_int (fillna_zero (to_numeric s))) as [zs|e] eqn:Hz; [| discriminate].
    assert (cell df' c i =
            Some (VInt (match parsed_number s i with
                        | Some n => cast_integer n
                        | None => 0
                        end))) as ->.
    { unfold cell. rewrite Hg, Hs. simpl. rewrite Hr. simpl.
      rewrite nth_error_map, (int_series_cell s zs i _ Hz Hv). reflexivity. }
    eexists. split; reflexivity.
Qed.

End StoredTypes.

(* ===================================================================== *)
(** ** The preprocessing step on its own result *)
(* ===================================================================== *)

Lemma code_digit_char k : 0 <= k <= 9 -> code (digit_char k) = 48 + k.
Proof.
  intros Hk. unfold code, digit_char.
  rewrite N_ascii_embedding by lia. lia.
Qed.

(** the format needs a slash as the second or the third character *)
Lemma format_regex_match_slash a b c r :
  code b <> 47 -> code c <> 47 ->
  format_regex_match (String a (String b (String c r))) = None.
Proof.
  intros Hb Hc. apply Z.eqb_neq in Hb, Hc.
  unfold format_regex_match, re_m, alt2, alt1, re_slash. rewrite Hb, Hc.
  destruct (in_class 49 49 a && in_class 48 50 b), (in_class 48 48 a && in_class 49 57 b),
    (in_class 49 57 a); reflexivity.
Qed.

(** a date in the ISO form is not a date in the form of the format *)
Lemma strptime_iso y m d : strptime_coerce (iso_8601 y m d) = NaT.
Proof.
  unfold strptime_coerce.
  assert (format_regex_match (iso_8601 y m d) = None) as ->; [| reflexivity].
  unfold iso_8601, four_digits, two_digits.
  apply format_regex_match_slash; rewrite code_digit_char;
    Z.to_euclidean_division_equations; lia.
Qed.

Lemma strftime_iso t : exists y m d, strftime_Ymd t = iso_8601 y m d.
Proof.
  unfold strftime_Ymd. destruct (ns_to_datetimestruct t) as [[y m] d]. eauto.
Qed.

Section Renormalise.
Context `{Platform}.

Lemma to_numeric_Series_of n : to_numeric (Series_of n) = n.
Proof. destruct n; reflexivity. Qed.

Lemma fillna_zero_twice n : fillna_zero (fillna_zero n) = fillna_zero n.
Proof.
  destruct n as [xs|xs|xs]; simpl; try reflexivity.
  rewrite map_map. f_equal. apply map_ext. intros f. destruct f; reflexivity.
Qed.

Lemma astype_str_twice s :
  astype_str (fillna_str "" (astype_str s)) = astype_str s.
Proof.
  unfold astype_str. simpl. rewrite !map_map. reflexivity.
Qed.

(** a column that is not a date is normalised once and for all *)
Lemma column_result_twice c s s' :
  ~ In c date_columns -> column_result c s = Ok s' -> column_result c s' = Ok s'.
Proof.
  intros Hc. unfold column_result.
  destruct (existsb (String.eqb c) date_columns) eqn:Hd.
  { apply existsb_eqb_In in Hd. contradiction. }
  destruct (existsb (String.eqb c) float_columns).
  { intros [= <-]. rewrite to_numeric_Series_of, fillna_zero_twice. reflexivity. }
  destruct (existsb (String.eqb c) int_columns).
  { destruct (astype_int (fillna_zero (to_numeric s))) as [zs|]; simpl; [| discriminate].
    intros [= <-]. reflexivity. }
  destruct (existsb (String.eqb c) text_columns).
  { intros [= <-]. rewrite astype_str_twice. reflexivity. }
  auto.
Qed.

(** a normalised frame normalises *)
Lemma preprocess_again df df' : preprocess df = Ok df' -> exists df'', preprocess df' = Ok df''.
Proof.
  intros Hp. destruct (preprocess df') as [df''|e] eqn:Hp'; [eauto |].
  pose proof (preprocess_Ok_inv _ _ Hp) as [Hcols _].
  pose proof (preprocess_columns _ _ Hp) as [Hn Hg].
  apply preprocess_Raise_inv in Hp' as [(c & _ & Hc & Hm) | (_ & c & s' & Hc & Hs' & Hi)].
  - rewrite Hn in Hm. destruct (Hm (Hcols c Hc)).
  - rewrite Hg in Hs'. destruct (df_get df c) as [s|]; [| discriminate]. simpl in Hs'.
    assert (exists zs, s' = Int64 zs) as [zs ->].
    { destruct Hc as [<- | [<- | []]]; unfold column_result in Hs'; simpl in Hs';
        destruct (astype_int (fillna_zero (to_numeric s))) as [zs|]; simpl in Hs';
        try discriminate; injection Hs' as <-; eauto. }
    discriminate.
Qed.

End Renormalise.

Section RenormaliseClaims.
Context `{Platform}.

(** a cell of a normalised date column is a text the format does not match *)
Lemma date_cell_unparsed df df' c i v :
  preprocess df = Ok df' -> In c date_columns -> cell df' c i = Some v ->
  exists t, v = VStr t /\ strptime_coerce t = NaT.
Proof.
  intros Hp Hc Hv.
  apply preprocess_columns in Hp as [_ Hg].
  apply cell_get in Hv as (s' & Hs' & Hv).
  rewrite Hg in Hs'. destruct (df_get df c) as [s|] eqn:Hs; [| discriminate]. simpl in Hs'.
  assert (s' = fillna_str "1900-01-01" (dt_strftime (to_datetime s))) as ->.
  { destruct Hc as [<- | [<- | []]]; injection Hs' as <-; reflexivity. }
  assert (exists v0, nth_error (values s) i = Some v0) as [v0 Hv0].
  { destruct (nth_error (values s) i) as [v0|] eqn:E; [eauto |].
    apply List.nth_error_None in E. rewrite <- values_length_date in E.
    apply List.nth_error_None in E. congruence. }
  rewrite (date_series_cell _ _ _ Hv0) in Hv. injection Hv as <-.
  eexists. split; [reflexivity |].
  assert (strptime_coerce "1900-01-01" = NaT) as Hd by apply (strptime_iso 1900 1 1).
  destruct v0 as [z|f|b|t]; try exact Hd.
  destruct (strptime_coerce t =? NaT); [exact Hd |].
  destruct (strftime_iso (strptime_coerce t)) as (y & m & d & ->). apply strptime_iso.
Qed.

(** X8. The preprocessing step can be run again on its own result.  It then
    leaves every column other than the two dates as it is, and replaces every
    date by the sentinel 1900-01-01: a date already in the ISO form is not in
    the form the step reads. *)
Theorem renormalising_resets_dates df df' :
  preprocess df = Ok df' ->
  exists df'',
    preprocess df' = Ok df'' /\
    column_names df'' = column_names df' /\
    (forall c, ~ In c date_columns -> df_get df'' c = df_get df' c) /\
    (forall c i v, In c date_columns -> cell df' c i = Some v ->
                   cell df'' c i = Some (VStr sentinel_date)).
Proof.
  intros Hp. destruct (preprocess_again _ _ Hp) as [df'' Hp']. exists df''.
  pose proof (preprocess_columns _ _ Hp) as [Hn Hg].
  pose proof (preprocess_columns _ _ Hp') as [Hn' Hg'].
  split; [exact Hp' | split; [exact Hn' | split]].
  - intros c Hc. rewrite Hg'.
    destruct (df_get df' c) as [s'|e] eqn:Hs'; [| reflexivity]. simpl.
    rewrite Hg in Hs'. destruct (df_get df c) as [s|]; [| discriminate]. simpl in Hs'.
    apply (column_result_twice _ _ _ Hc Hs').
  - intros c i v Hc Hv.
    destruct (date_cell_unparsed _ _ _ _ _ Hp Hc Hv) as (t & -> & Ht).
    rewrite (date_column_cell _ _ _ _ _ Hp' Hc Hv), Ht. reflexivity.
Qed.

End RenormaliseClaims.

(* ===================================================================== *)
(** ** The order of the stored dates and the sentinel *)
(* ===================================================================== *)

Lemma compare_digit_char j k :
  0 <= j <= 9 -> 0 <= k <= 9 -> Ascii.compare (digit_char j) (digit_char k) = (j ?= k).
Proof.
  intros Hj Hk. unfold Ascii.compare, digit_char.
  rewrite !N_ascii_embedding by lia. rewrite Z2N.inj_compare by lia.
  apply Z.add_compare_mono_l.
Qed.

Lemma compare_lex x1 x2 r1 r2 :
  0 <= r1 <= 9 -> 0 <= r2 <= 9 ->
  (10 * x1 + r1 ?= 10 * x2 + r2) = match x1 ?= x2 with Eq => r1 ?= r2 | c => c end.
Proof.
  intros H1 H2. destruct (Z.compare_spec x1 x2) as [-> | Hlt | Hgt].
  - apply Z.add_compare_mono_l.
  - apply Z.compare_lt_iff. lia.
  - apply Z.compare_gt_iff. lia.
Qed.

Lemma four_digits_split y :
  0 <= y <= 9999 ->
  exists a b c e,
    0 <= a <= 9 /\ 0 <= b <= 9 /\ 0 <= c <= 9 /\ 0 <= e <= 9 /\
    y = 10 * (10 * (10 * a + b) + c) + e /\
    four_digits y =
    String (digit_char a) (String (digit_char b) (String (digit_char c)
      (String (digit_char e) EmptyString))).
Proof.
  intros Hy. exists (y / 1000), (y / 100 mod 10), (y mod 100 / 10), (y mod 100 mod 10).
  repeat split; try reflexivity; Z.to_euclidean_division_equations; lia.
Qed.

Lemma two_digits_split n :
  0 <= n <= 99 ->
  exists a b,
    0 <= a <= 9 /\ 0 <= b <= 9 /\ n = 10 * a + b /\
    two_digits n = String (digit_char a) (String (digit_char b) EmptyString).
Proof.
  intros Hn. exists (n / 10), (n mod 10).
  repeat split; try reflexivity; Z.to_euclidean_division_equations; lia.
Qed.

(** texts in the ISO form compare, character by character, as their dates *)
Lemma iso_8601_compare y1 m1 d1 y2 m2 d2 :
  0 <= y1 <= 9999 -> 0 <= m1 <= 99 -> 0 <= d1 <= 99 ->
  0 <= y2 <= 9999 -> 0 <= m2 <= 99 -> 0 <= d2 <= 99 ->
  String.compare (iso_8601 y1 m1 d1) (iso_8601 y2 m2 d2) =
  date_compare (y1, m1, d1) (y2, m2, d2).
Proof.
  intros Hy1 Hm1 Hd1 Hy2 Hm2 Hd2. unfold iso_8601, date_compare.
  destruct (four_digits_split y1 Hy1) as (a1 & b1 & c1 & e1 & ? & ? & ? & ? & -> & ->).
  destruct (four_digits_split y2 Hy2) as (a2 & b2 & c2 & e2 & ? & ? & ? & ? & -> & ->).
  destruct (two_digits_split m1 Hm1) as (f1 & g1 & ? & ? & -> & ->).
  destruct (two_digits_split m2 Hm2) as (f2 & g2 & ? & ? & -> & ->).
  destruct (two_digits_split d1 Hd1) as (h1 & i1 & ? & ? & -> & ->).
  destruct (two_digits_split d2 Hd2) as (h2 & i2 & ? & ? & -> & ->).
  rewrite !compare_lex by assumption.
  change (String.compare
            (String (digit_char a1) (String (digit_char b1) (String (digit_char c1)
               (String (digit_char e1) (String "-" (String (digit_char f1)
                  (String (digit_char g1) (String "-" (String (digit_char h1)
                     (String (digit_char i1) EmptyString))))))))))
            (String (digit_char a2) (String (digit_char b2) (String (digit_char c2)
               (String (digit_char e2) (String "-" (String (digit_char f2)
                  (String (digit_char g2) (String "-" (String (digit_char h2)
                     (String (digit_char i2) EmptyString)))))))))) =
          match
            match
              match match a1 ?= a2 with Eq => b1 ?= b2 | c => c end with
              | Eq => c1 ?= c2
              | c => c
              end
            with
            | Eq => e1 ?= e2
            | c => c
            end
          with
          | Eq => match match f1 ?= f2 with Eq => g1 ?= g2 | c => c end with
                  | Eq => match h1 ?= h2 with Eq => i1 ?= i2 | c => c end
                  | c => c
                  end
          | c => c
          end).
  cbn [String.compare]. rewrite !compare_digit_char by assumption.
  change (Ascii.compare "-" "-") with Eq. cbv beta iota.
  destruct (a1 ?= a2); [| reflexivity | reflexivity].
  destruct (b1 ?= b2); [| reflexivity | reflexivity].
  destruct (c1 ?= c2); [| reflexivity | reflexivity].
  destruct (e1 ?= e2); [| reflexivity | reflexivity].
  destruct (f1 ?= f2); [| reflexivity | reflexivity].
  destruct (g1 ?= g2); [| reflexivity | reflexivity].
  destruct (h1 ?= h2); [| reflexivity | reflexivity].
  destruct (i1 ?= i2); reflexivity.
Qed.

Lemma valid_mdy_bounds s y m d :
  valid_mdy s y m d -> 0 <= y <= 9999 /\ 0 <= m <= 99 /\ 0 <= d <= 99.
Proof.
  intros (_ & Hg & Hr).
  pose proof (timestamp_range_year _ _ _ Hr). pose proof (gregorian_date_bounds _ _ _ Hg).
  lia.
Qed.

(** X9. Dates are stored so that they can be filtered as texts: the stored
    forms of two valid dates compare, character by character as SQLite
    compares texts, the way the two days compare in the calendar. *)
Theorem stored_dates_sort_chronologically s1 y1 m1 d1 s2 y2 m2 d2 :
  valid_mdy s1 y1 m1 d1 -> valid_mdy s2 y2 m2 d2 ->
  String.compare (strftime_Ymd (strptime_coerce s1)) (strftime_Ymd (strptime_coerce s2)) =
  date_compare (y1, m1, d1) (y2, m2, d2).
Proof.
  intros H1 H2.
  destruct (strptime_valid _ _ _ _ H1) as [_ ->].
  destruct (strptime_valid _ _ _ _ H2) as [_ ->].
  apply valid_mdy_bounds in H1 as (? & ? & ?), H2 as (? & ? & ?).
  apply iso_8601_compare; assumption.
Qed.

Lemma date_compare_Eq a b : date_compare a b = Eq -> a = b.
Proof.
  destruct a as [[y1 m1] d1], b as [[y2 m2] d2]. unfold date_compare.
  destruct (Z.compare_spec y1 y2); try discriminate.
  destruct (Z.compare_spec m1 m2); try discriminate.
  destruct (Z.compare_spec d1 d2); try discriminate.
  intros _. congruence.
Qed.

Section SentinelClaims.
Context `{Platform}.


End SentinelClaims.

Section ShapeClaims.
Context `{Platform}.

(** a column outside the schema is not touched *)
Lemma column_result_other c s : ~ In c (map fst schema) -> column_result c s = Ok s.
Proof.
  intros Hc. unfold column_result.
  assert (forall cols, incl cols (map fst schema) -> existsb (String.eqb c) cols = false) as Hno.
  { intros cols Hi. destruct (existsb (String.eqb c) cols) eqn:E; [| reflexivity].
    apply existsb_eqb_In in E. destruct (Hc (Hi c E)). }
  assert (forall cols, forallb (fun x => existsb (String.eqb x) (map fst schema)) cols = true ->
                       incl cols (map fst schema)) as Hincl.
  { intros cols Hf x Hx. rewrite forallb_forall in Hf. apply existsb_eqb_In, Hf, Hx. }
  rewrite !Hno by (apply Hincl; reflexivity). reflexivity.
Qed.

(** X11. The preprocessing step works in place: the frame keeps its columns,
    in their order, and its rows; every column keeps its length, and a column
    that the schema does not name keeps its cells. *)
Theorem preprocess_keeps_shape df df' :
  preprocess df = Ok df' ->
  column_names df' = column_names df /\
  len df' = len df /\
  (forall c s s', df_get df c = Ok s -> df_get df' c = Ok s' ->
                  length (values s') = length (values s)) /\
  (forall c, ~ In c (map fst schema) -> df_get df' c = df_get df c).
Proof.
  intros Hp. pose proof (preprocess_columns _ _ Hp) as [Hn Hg].
  split; [exact Hn | split; [exact (preprocess_len _ _ Hp) | split]].
  - intros c s s' Hs Hs'. rewrite Hg, Hs in Hs'. simpl in Hs'.
    apply (column_result_length _ _ _ Hs').
  - intros c Hc. rewrite Hg. destruct (df_get df c) as [s|e]; [| reflexivity].
    simpl. apply column_result_other, Hc.
Qed.

End ShapeClaims.

(* ===================================================================== *)
(** ** The output of a call, the destination file and the script *)
(* ===================================================================== *)

Section OutputClaims.
Context `{Platform}.

Lemma preprocess_not_FileNotFound df e :
  preprocess df = Raise e -> is_FileNotFoundError e = false.
Proof.
  intros Hp. apply preprocess_Raise_inv in Hp as [(c & -> & _) | (-> & _)]; reflexivity.
Qed.

(** X12. What a call prints: the line that names the source first, then the
    progress lines of the steps it reached (six at most), and last exactly
    one closing line: success for this destination, not-found for this
    source, which nothing but the reading of the source gives, or the error
    of one of the other failures. *)
Theorem call_output csv_file db_file table_name w :
  let w' := snd (csv_to_sqlite csv_file db_file table_name w) in
  exists last ms,
    stdout w' = (last :: ms ++ Reading csv_file :: stdout w)%list /\
    (length ms <= 6)%nat /\
    existsb is_closing ms = false /\
    (last = Created db_file \/
     (last = NotFound csv_file /\ ms = [] /\
      (files w !! csv_file = None \/
       files w !! csv_file = Some (CsvFails FileNotFoundError))) \/
     (exists e, last = ErrorOccurred e /\ is_FileNotFoundError e = false)).
Proof.
  rewrite csv_to_sqlite_run. cbv zeta. simpl snd. unfold outcome, handler_line.
  destruct (files w !! csv_file) as [[df|e]|] eqn:Hf; simpl.
  - set (l := Loaded (len df) (column_names df)).
    destruct (preprocess df) as [df'|e] eqn:Hp; simpl.
    + assert (forall ts,
        let w' := outcome_after_connect csv_file db_file table_name df' ts
                    [Connecting db_file; l; Reading csv_file] w in
        exists last ms,
          stdout w' = (last :: ms ++ Reading csv_file :: stdout w)%list /\
          (length ms <= 6)%nat /\
          existsb is_closing ms = false /\
          (last = Created db_file \/
           (exists e, last = ErrorOccurred e /\ is_FileNotFoundError e = false))) as Hafter.
      { intros ts. unfold outcome_after_connect.
        destruct (sqlite_table_name_ok table_name); simpl.
        - destruct (find _ (column_names df')) as [c|]; simpl.
          + exists (ErrorOccurred (OperationalError (NoSuchColumn c))),
              [Writing table_name; Creating table_name; Connecting db_file; l].
            repeat split; simpl; eauto 10; lia.
          + eexists (Created db_file),
              [Inserted _ table_name; Verifying; Writing table_name; Creating table_name;
               Connecting db_file; l].
            repeat split; simpl; eauto 10; lia.
        - exists (ErrorOccurred (OperationalError SyntaxError)),
            [Creating table_name; Connecting db_file; l].
          repeat split; simpl; eauto 10; lia. }
      destruct (dbs w !! db_file) as [[ts| |]|]; simpl.
      * destruct (Hafter ts) as (last & ms & ? & ? & ? & [? | ?]); exists last, ms; repeat split; auto.
      * exists (ErrorOccurred DatabaseError), [Creating table_name; Connecting db_file; l].
        repeat split; simpl; eauto 10; lia.
      * exists (ErrorOccurred (OperationalError UnableToOpen)), [Connecting db_file; l].
        repeat split; simpl; eauto 10; lia.
      * destruct (Hafter ∅) as (last & ms & ? & ? & ? & [? | ?]); exists last, ms; repeat split; auto.
    + rewrite (preprocess_not_FileNotFound _ _ Hp).
      exists (ErrorOccurred e), [l].
      repeat split; simpl; eauto 10 using preprocess_not_FileNotFound; lia.
  - destruct (is_FileNotFoundError e) eqn:He.
    + exists (NotFound csv_file), []. repeat split; simpl; try lia.
      right; left. repeat split. right. destruct e; try discriminate. reflexivity.
    + exists (ErrorOccurred e), []. repeat split; simpl; eauto 10; lia.
  - exists (NotFound csv_file), []. repeat split; simpl; try lia.
    right; left. auto.
Qed.


(** X14. The script run as a program converts data/SuperStoreOrders.csv into
    the table orders of data/SuperStoreOrders.db: it returns in every world,
    writes to no other database file and to no other table, and where its
    source is missing it prints its two lines and creates nothing. *)
Theorem main_run w :
  exists w',
    main w = (Ok tt, w') /\
    files w' = files w /\
    (forall db, db <> "data/SuperStoreOrders.db" -> dbs w' !! db = dbs w !! db) /\
    (forall t, t <> "orders" ->
       lookup_table w' "data/SuperStoreOrders.db" t = lookup_table w "data/SuperStoreOrders.db" t) /\
    (files w !! "data/SuperStoreOrders.csv" = None ->
     w' = World (files w) (dbs w) (connections w)
            (NotFound "data/SuperStoreOrders.csv" :: Reading "data/SuperStoreOrders.csv"
               :: stdout w)).
Proof.
  unfold main. cbv zeta. rewrite csv_to_sqlite_run. eexists. split; [reflexivity |].
  destruct (outcome_dbs "data/SuperStoreOrders.csv" "data/SuperStoreOrders.db" "orders" w)
    as [Hf Hd].
  set (w' := outcome _ _ _ w) in *.
  split; [exact Hf | split; [| split]].
  - intros other Hne.
    destruct Hd as [-> | [_ [-> | (new & -> & _)]]];
      rewrite ?lookup_insert_ne by congruence; reflexivity.
  - intros other Hne. unfold lookup_table at 1.
    destruct Hd as [-> | [_ [-> | (new & -> & _)]]].
    + reflexivity.
    + rewrite lookup_insert_eq, lookup_table_before. reflexivity.
    + rewrite lookup_insert_eq, lookup_insert_ne by congruence.
      rewrite lookup_table_before. reflexivity.
  - intros Hnone. subst w'. unfold outcome. rewrite Hnone. reflexivity.
Qed.

End OutputClaims.

(* ===================================================================== *)
(** ** The appended rows, column by column *)
(* ===================================================================== *)

(** the parameter of an [INSERT] that is named [c] is the cell of the column [c] *)
Lemma named_frame_row df c i :
  named c (map (fun '(c, s) => (c, bind_value (nth i (values s) (VFloat nan)))) df) =
  match df_get df c with
  | Ok s => Some (bind_value (nth i (values s) (VFloat nan)))
  | Raise _ => None
  end.
Proof.
  induction df as [|[n s] rest IH]; simpl; [reflexivity |].
  destruct (String.eqb n c); [reflexivity | exact IH].
Qed.

Lemma nth_error_frame_rows df i :
  (i < len df)%nat ->
  nth_error (frame_rows df) i =
  Some (map (fun '(c, s) => (c, bind_value (nth i (values s) (VFloat nan)))) df).
Proof.
  intros Hi. unfold frame_rows. rewrite nth_error_map.
  rewrite (nth_error_nth' _ O) by (rewrite length_seq; exact Hi).
  rewrite seq_nth by exact Hi. reflexivity.
Qed.

Section ByName.
Context `{Platform}.

Lemma store_SNull a : store a SNull = SNull.
Proof. destruct a; reflexivity. Qed.

(** a stored row, column by column of the table *)
Lemma store_row_nth cols df i j c a :
  nth_error cols j = Some (c, a) ->
  nth_error (store_row cols
               (map (fun '(c, s) => (c, bind_value (nth i (values s) (VFloat nan)))) df)) j =
  Some (match cell df c i with
        | Some v => store a (bind_value v)
        | None => SNull
        end).
Proof.
  intros Hj. unfold store_row. rewrite nth_error_map, Hj. simpl.
  rewrite named_frame_row. unfold cell. destruct (df_get df c) as [s|e]; [| reflexivity].
  destruct (nth_error (values s) i) as [v|] eqn:E.
  - rewrite (nth_error_nth _ _ _ E). reflexivity.
  - apply List.nth_error_None in E. rewrite nth_overflow by exact E.
    change (bind_value (VFloat nan)) with SNull. rewrite store_SNull. reflexivity.
Qed.


End ByName.

(* ===================================================================== *)
(** ** The further properties on the examples *)
(* ===================================================================== *)

(** X3 on an example: a source without the column ship_date. *)
Lemma failure_before_connect_witness :
  dbs (snd (csv_to_sqlite (H := sample_platform) "short.csv" "orders.db" "orders" short_world))
    = dbs short_world /\
  connections
    (snd (csv_to_sqlite (H := sample_platform) "short.csv" "orders.db" "orders" short_world))
    = [].
Proof.
  destruct (failure_before_connect (H := sample_platform)
              "short.csv" "orders.db" "orders" short_world) as (_ & Hd & Hc & _).
  - intros df df' Hf. vm_compute in Hf. injection Hf as <-. vm_compute. discriminate.
  - split; [exact Hd | exact Hc].
Defined.


(** X5 on the example: the example source has what the step needs. *)
Lemma preprocess_succeeds_iff_witness :
  incl (map fst schema) (column_names example_frame) /\
  forall c s, In c int_columns -> df_get example_frame c = Ok s ->
              no_infinity (to_numeric (H := sample_platform) s) = true.
Proof.
  apply (proj1 (preprocess_succeeds_iff (H := sample_platform) example_frame)).
  exists example_normalized. vm_compute. reflexivity.
Defined.

(** X6 on an example: the source without the column ship_date. *)
Lemma preprocess_failure_kinds_witness :
  (exists c, KeyError "ship_date" = KeyError c /\ In c (map fst schema) /\
             df_get short_frame c = Raise (KeyError c)) \/
  (KeyError "ship_date" = IntCastingNaNError /\
   exists c s, In c int_columns /\ df_get short_frame c = Ok s /\
               exists xs, to_numeric (H := sample_platform) s = NFloat64 xs /\
                          existsb is_infinite xs = true).
Proof.
  apply (preprocess_failure_kinds (H := sample_platform) short_frame (KeyError "ship_date")).
  vm_compute. reflexivity.
Defined.

(** X7 on the example: the sales n/a of the second row. *)
Lemma stored_cells_typed_witness :
  exists v, stored_cell (H := sample_platform) example_normalized "sales" 1 = Some v /\
            of_declared_type REAL v = true /\ v <> SNull.
Proof.
  apply (stored_cells_typed (H := sample_platform)
           example_frame example_normalized "sales" REAL 1%nat (VStr "n/a"));
    vm_compute; reflexivity.
Defined.

(** X8 on the example: the order date of the first row, normalised twice. *)
Lemma renormalising_resets_dates_witness :
  exists df'', preprocess (H := sample_platform) example_normalized = Ok df'' /\
               cell df'' "order_date" 0 = Some (VStr sentinel_date).
Proof.
  destruct (renormalising_resets_dates (H := sample_platform)
              example_frame example_normalized ltac:(vm_compute; reflexivity))
    as (df'' & Hp & _ & _ & Hd).
  exists df''. split; [exact Hp |].
  apply (Hd "order_date" 0%nat (VStr "2014-03-05")); [left; reflexivity |].
  vm_compute. reflexivity.
Defined.

(** X9 on an example: 3/5/2014 is before 12/25/2014, which as a text of the
    source comes first. *)
Lemma stored_dates_sort_chronologically_witness :
  String.compare (strftime_Ymd (strptime_coerce "3/5/2014"))
                 (strftime_Ymd (strptime_coerce "12/25/2014")) = Lt /\
  String.compare "3/5/2014" "12/25/2014" = Gt.
Proof.
  split; [| reflexivity].
  rewrite (stored_dates_sort_chronologically "3/5/2014" 2014 3 5 "12/25/2014" 2014 12 25).
  - reflexivity.
  - split; [| split; reflexivity]. exists "3", "5", "2014". repeat split.
  - split; [| split; reflexivity]. exists "12", "25", "2014". repeat split.
Defined.


(** X11 on the example: the source with the column notes. *)
Lemma preprocess_keeps_shape_witness :
  column_names extra_frame_normalized = column_names extra_frame /\
  len extra_frame_normalized = 2%nat /\
  df_get extra_frame_normalized "notes" = df_get extra_frame "notes".
Proof.
  destruct (preprocess_keeps_shape (H := sample_platform) extra_frame extra_frame_normalized
              ltac:(vm_compute; reflexivity)) as (Hn & Hl & _ & Ho).
  split; [exact Hn | split; [rewrite Hl; reflexivity |]].
  apply Ho. simpl. intros Hc. repeat (destruct Hc as [Hc | Hc]; [discriminate |]). exact Hc.
Defined.



(* ===================================================================== *)
(** ** Several sources into one table *)
(* ===================================================================== *)

Section Successive.
Context `{Platform}.


End Successive.


(* ===================================================================== *)
(** ** The last steps of a call *)
(* ===================================================================== *)

Section LastSteps.
Context `{Platform}.


End LastSteps.

(* ===================================================================== *)
(** ** Dates that are not kept *)
(* ===================================================================== *)

Lemma re_Y_suffix {R} ty y suf (k : Z -> string -> option R) :
  field_value 4 4 ty = Some y -> re_Y (ty +:+ suf) k = k y suf.
Proof.
  intros Hf. apply field_value_4_inv in Hf as (c1 & c2 & c3 & c4 & -> & H1 & H2 & H3 & H4 & ->).
  change (String c1 (String c2 (String c3 (String c4 ""))) +:+ suf)
    with (String c1 (String c2 (String c3 (String c4 suf)))).
  unfold re_Y. rewrite H1, H2, H3, H4. reflexivity.
Qed.

(** month/day/year of a calendar day is what the format matches of a text
    that goes on after it *)
Lemma format_regex_match_suffix s m d y suf :
  mdy_text s m d y -> 1 <= m <= 12 -> 1 <= d <= 31 ->
  format_regex_match (s +:+ suf) = Some (m, d, y, suf).
Proof.
  intros (tm & td & ty & -> & Hm & Hd & Hy) Rm Rd.
  unfold format_regex_match.
  replace ((tm +:+ "/" +:+ td +:+ "/" +:+ ty) +:+ suf)
    with (tm +:+ String "/" (td +:+ String "/" (ty +:+ suf))).
  2:{ change (tm +:+ "/" +:+ td +:+ "/" +:+ ty)
        with (tm +:+ (String "/" "" +:+ (td +:+ (String "/" "" +:+ ty)))).
      rewrite !append_assoc. reflexivity. }
  eapply re_m_complete; eauto.
  unfold re_slash at 1. rewrite code_slash. simpl.
  eapply re_d_complete; eauto.
  unfold re_slash. rewrite code_slash. simpl.
  erewrite re_Y_suffix; eauto.
Qed.

(** a text has one reading as month/day/year at most *)
Lemma mdy_text_unique s m d y m' d' y' :
  mdy_text s m d y -> gregorian_date y m d = true ->
  mdy_text s m' d' y' -> gregorian_date y' m' d' = true ->
  (y', m', d') = (y, m, d).
Proof.
  intros Ht Hg Ht' Hg'.
  apply gregorian_date_bounds in Hg as [Hm Hd], Hg' as [Hm' Hd'].
  pose proof (format_regex_match_complete _ _ _ _ Ht Hm Hd) as E.
  pose proof (format_regex_match_complete _ _ _ _ Ht' Hm' Hd') as E'.
  congruence.
Qed.

Section LostDates.
Context `{Platform}.


(** X19. The format has to match the whole cell: a valid date followed by
    anything more, a time of day or a blank, is stored as the sentinel
    1900-01-01. *)
Theorem trailing_text_rejected df df' c i s suffix y m d :
  preprocess df = Ok df' -> In c date_columns ->
  cell df c i = Some (VStr (s +:+ suffix)) ->
  valid_mdy s y m d -> suffix <> "" ->
  cell df' c i = Some (VStr sentinel_date).
Proof.
  intros Hp Hc Hv (Ht & Hg & _) Hsuf. rewrite (date_column_cell _ _ _ _ _ Hp Hc Hv).
  apply gregorian_date_bounds in Hg as [Hm Hd].
  unfold strptime_coerce. rewrite (format_regex_match_suffix _ _ _ _ suffix Ht Hm Hd).
  destruct suffix; [contradiction | reflexivity].
Qed.

End LostDates.


(** X19 on an example: a date with a time of day. *)
Lemma trailing_text_rejected_witness :
  cell dated_normalized "order_date" 1 = Some (VStr "1900-01-01").
Proof.
  apply (trailing_text_rejected (H := sample_platform)
           dated_frame dated_normalized "order_date" 1%nat "3/5/2014" " 10:30" 2014 3 5).
  - vm_compute. reflexivity.
  - left. reflexivity.
  - vm_compute. reflexivity.
  - split; [| split; reflexivity]. exists "3", "5", "2014". repeat split.
  - discriminate.
Defined.
